(** * jumptrace: location index and selection synchronisation

    A shallow embedding of the jumptrace VS Code extension
    ([realize.ts], [extension.ts]) and the properties of its location
    index, its path normalisation and its selection-change handler.

    Conventions of the embedding.
    - A JavaScript string is its sequence of UTF-8 bytes ([string]).  The
      code only inspects ASCII characters and the four ECMAScript line
      terminators, which are recognisable bytewise.
    - A [RegExp] without the [g] flag is the function computed by
      [String.prototype.match]: [None] for [null], otherwise the match
      array (whole match first, then the capture groups), typed
      [string[]] as [RegExpMatchArray] is.
    - [Map] is a finite map ([gmap]).  The extension never iterates over
      its maps, and the operations modelled here never update a line map
      that [currentActiveFileLocationMap] also refers to (extraction runs
      on an empty index only), so the value semantics is exact.
    - The host editor is reached through a record of observations
      ([Host]) and a log of the calls made to it ([Effect]). *)

From Stdlib Require Import ZArith Ascii String List Bool Lia.
From stdpp Require Import base decidable option list strings gmap fin_maps.

Local Open Scope string_scope.
Local Open Scope Z_scope.

(** ** JavaScript values *)

(** The numbers the extension computes with are integers (line indices,
    results of [parseInt]) or [NaN]. *)
Inductive number : Type :=
  | NaN
  | Num (z : Z).

#[global] Instance number_eq_dec : EqDecision number.
Proof. solve_decision. Defined.

Definition number_to_option (n : number) : option Z :=
  match n with NaN => None | Num z => Some z end.

Definition number_of_option (o : option Z) : number :=
  match o with None => NaN | Some z => Num z end.

#[global] Instance number_countable : Countable number.
Proof.
  apply (inj_countable' number_to_option number_of_option).
  by intros [].
Defined.

(** [x - 1] on numbers. *)
Definition minusOne (x : number) : number :=
  match x with NaN => NaN | Num z => Num (z - 1) end.

(** A regular expression, as seen through [line.match(re)]. *)
Definition RegExpMatchArray : Type := list string.
Definition RegExp : Type := string -> option RegExpMatchArray.

(** [pathMatch[k]] for an index the caller has checked to be in range. *)
Definition group (pathMatch : RegExpMatchArray) (k : nat) : string :=
  nth k pathMatch "".

(** ** Characters *)

Definition isLetter (c : ascii) : bool :=
  let n := nat_of_ascii c in
  ((65 <=? n)%nat && (n <=? 90)%nat) || ((97 <=? n)%nat && (n <=? 122)%nat).

Definition isDigit (c : ascii) : bool :=
  let n := nat_of_ascii c in (48 <=? n)%nat && (n <=? 57)%nat.

(** [toUpperCase] on a one-letter string matched by [[a-zA-Z]]. *)
Definition toUpperCase (c : ascii) : ascii :=
  let n := nat_of_ascii c in
  if (97 <=? n)%nat && (n <=? 122)%nat then ascii_of_nat (n - 32) else c.

Definition backslash : ascii := ascii_of_nat 92.
Definition slash : ascii := ascii_of_nat 47.
Definition colon : ascii := ascii_of_nat 58.
Definition LF : ascii := ascii_of_nat 10.
Definition CR : ascii := ascii_of_nat 13.

(** Does [s] start with a line terminator (LF, CR, U+2028, U+2029)?  The
    dot of a regular expression matches any character but these. *)
Definition startsWithLineTerminator (s : string) : bool :=
  match s with
  | String c rest =>
      if decide (c = LF) then true
      else if decide (c = CR) then true
      else if decide (c = ascii_of_nat 226) then
        match rest with
        | String c1 (String c2 _) =>
            bool_decide (c1 = ascii_of_nat 128) &&
            (bool_decide (c2 = ascii_of_nat 168) || bool_decide (c2 = ascii_of_nat 169))
        | _ => false
        end
      else false
  | EmptyString => false
  end.

(** [/^.*$/] on [s]: no line terminator anywhere. *)
Fixpoint dotStarToEnd (s : string) : bool :=
  match s with
  | EmptyString => true
  | String _ rest => negb (startsWithLineTerminator s) && dotStarToEnd rest
  end.

(** ** realize.ts: path normalisation *)

(** [filePath.replace(/\\/g, '/')] *)
Fixpoint replaceBackslashes (s : string) : string :=
  match s with
  | EmptyString => EmptyString
  | String c rest =>
      String (if decide (c = backslash) then slash else c) (replaceBackslashes rest)
  end.

(** The regular expression of [getActiveEditorFilePath]: one ASCII letter,
    a colon, then a slash followed by any characters but line terminators up
    to the end.  The groups are the drive letter and the rest from the slash. *)
Definition windowsPathRegex (s : string) : option (ascii * string) :=
  match s with
  | String d (String c1 (String c2 rest)) =>
      if isLetter d && bool_decide (c1 = colon) && bool_decide (c2 = slash)
         && dotStarToEnd rest
      then Some (d, String c2 rest)
      else None
  | _ => None
  end.

(** [getActiveEditorFilePath(osName, filePath)]; [None] is [undefined]. *)
Definition getActiveEditorFilePath (osName filePath : string) : option string :=
  if decide (filePath = "") then None
  else
    let normalizedPath := replaceBackslashes filePath in
    if decide (osName = "Windows") then
      match windowsPathRegex normalizedPath with
      | Some (d, rest) => Some (String (toUpperCase d) (String colon rest))
      | None => Some normalizedPath
      end
    else Some normalizedPath.

(** ** Regular expressions of the configuration *)

(** The default skip expression, a caret and a space: a line that starts
    with a space. *)
Definition skipLeadingSpace : RegExp := fun line =>
  match line with
  | String c _ => if decide (c = ascii_of_nat 32) then Some [" "] else None
  | EmptyString => None
  end.

(** One or more decimal digits up to the end of the line. *)
Fixpoint allDigits (s : string) : bool :=
  match s with
  | EmptyString => true
  | String c rest => isDigit c && allDigits rest
  end.

Definition digitsToEnd (s : string) : bool :=
  match s with
  | EmptyString => false
  | String _ _ => allDigits s
  end.

(** The lazy part shared by the default path expressions: after the prefix
    [acc], extend the first group one character at a time until what follows
    is a colon and digits up to the end.  The result is the pair of groups. *)
Fixpoint lazyPathAndLine (acc s : string) : option (string * string) :=
  match s with
  | EmptyString => None
  | String c rest =>
      if bool_decide (c = colon) && digitsToEnd rest then Some (acc, rest)
      else if startsWithLineTerminator s then None
      else lazyPathAndLine (acc +:+ String c EmptyString) rest
  end.

Definition matchArray (line : string) (groups : option (string * string))
  : option RegExpMatchArray :=
  match groups with
  | Some (g1, g2) => Some [line; g1; g2]
  | None => None
  end.

Definition isSeparator (c : ascii) : bool :=
  bool_decide (c = slash) || bool_decide (c = backslash).

(** The default on an unknown platform: any path, a colon, a line number. *)
Definition unknownPathRegex : RegExp := fun line =>
  matchArray line (lazyPathAndLine "" line).

(** The default on macOS and Linux: the path starts with a separator. *)
Definition posixPathRegex : RegExp := fun line =>
  match line with
  | String c rest =>
      if isSeparator c
      then matchArray line (lazyPathAndLine (String c EmptyString) rest)
      else None
  | EmptyString => None
  end.

(** The default on Windows: a drive letter, a colon and a separator first. *)
Definition win32PathRegex : RegExp := fun line =>
  match line with
  | String d (String c1 (String c2 rest)) =>
      if isLetter d && bool_decide (c1 = colon) && isSeparator c2
      then matchArray line
             (lazyPathAndLine (String d (String c1 (String c2 EmptyString))) rest)
      else None
  | _ => None
  end.

(** [parseInt] on a string that starts with a decimal digit and denotes a
    number below 2^53, with radix 10 or none; [NaN] when the string does
    not start with a digit.  It is the instance used by the fixtures. *)
Fixpoint digitsValue (acc : Z) (s : string) : Z :=
  match s with
  | String c rest =>
      if isDigit c then digitsValue (10 * acc + (Z.of_nat (nat_of_ascii c) - 48)) rest
      else acc
  | EmptyString => acc
  end.

Definition parseIntDigits (s : string) (radix : option Z) : number :=
  match s with
  | String c _ => if isDigit c then Num (digitsValue 0 s) else NaN
  | EmptyString => NaN
  end.

Definition parseFloatDigits (s : string) : number := parseIntDigits s None.

(** ** The host *)

(** Editors and documents are host objects compared by identity. *)
Definition TextEditor : Type := nat.
Definition TextDocument : Type := nat.

(** What the extension observes of the host when it asks. *)
Record Host : Type := {
  scheme : TextEditor -> string;            (* editor.document.uri.scheme *)
  fsPath : TextEditor -> string;            (* editor.document.uri.fsPath *)
  activeLine : TextEditor -> nat;           (* editor.selection.active.line *)
  lineAt : TextEditor -> nat -> option string;
                                            (* document.lineAt(i).text, None: it throws *)
  existsSync : string -> bool;              (* fs.existsSync *)
  readFile : string -> string + string;     (* content, or the error's message *)
  openTextDocument : string -> option TextDocument;   (* None: it throws *)
  showTextDocument : TextDocument -> option TextEditor; (* None: it throws *)
  visibleTextEditors : list TextEditor
}.

(** The calls the extension makes to the host, in order. *)
Inductive Effect : Type :=
  | ExistsSync (path : string)
  | ReadFile (path : string)
  | ShowErrorMessage (message : string)
  | ShowInformationMessage (message : string)
  | LoggerLog (message : string)
  | SetDecorations (target : TextEditor) (ranges : list Z)
  | RevealRange (target : TextEditor) (line : number)
  | HighlightLines (target : TextEditor) (startLine : option number) (lineCount : Z)
  | OpenFileAndJumpToLine (file : string) (y : number)
  | OpenTextDocument (path : string)
  | ShowTextDocument (doc : TextDocument).

(** ** realize.ts: the location index *)

Record FileLocationData : Type := {
  originalFileIndex : Z;
  highlightLineCount : Z
}.

#[global] Instance FileLocationData_eq_dec : EqDecision FileLocationData.
Proof. solve_decision. Defined.

(** [fileContent.split(/\r?\n/)]: [acc] is the line read so far. *)
Fixpoint splitLinesFrom (acc s : string) : list string :=
  match s with
  | EmptyString => [acc]
  | String c rest =>
      if decide (c = LF) then acc :: splitLinesFrom "" rest
      else if decide (c = CR) then
        match rest with
        | String c' rest' =>
            if decide (c' = LF) then acc :: splitLinesFrom "" rest'
            else splitLinesFrom (acc +:+ String c EmptyString) rest
        | EmptyString => splitLinesFrom (acc +:+ String c EmptyString) rest
        end
      else splitLinesFrom (acc +:+ String c EmptyString) rest
  end.

Definition splitLines (fileContent : string) : list string :=
  splitLinesFrom "" fileContent.

(** The indices [n-1, ..., 0] of [for (let i = n - 1; i >= 0; i--)]. *)
Definition descending (n : nat) : list nat := rev (seq 0 n).

Section Extension.

(** The built-in number parsers: [parseInt(s, radix)] with an optional
    radix and [parseFloat(s)]. *)
Variable parseInt : string -> option Z -> number.
Variable parseFloat : string -> number.

(** [lineMap.set(lineNumber, data)] on the map got or created for
    [filePath]. *)
Definition setLocation (fileLocationsMap : gmap string (gmap number FileLocationData))
    (filePath : string) (lineNumber : number) (data : FileLocationData)
  : gmap string (gmap number FileLocationData) :=
  match fileLocationsMap !! filePath with
  | Some lineMap => <[filePath := <[lineNumber := data]> lineMap]> fileLocationsMap
  | None => <[filePath := <[lineNumber := data]> ∅]> fileLocationsMap
  end.

(** One iteration of the loop of [extractFileLocations], on line [i], with
    the map and [lastMatchedLineIndex] as state. *)
Definition extractStep (pathRegex SkipRegExp : RegExp) (lines : list string)
    (st : gmap string (gmap number FileLocationData) * nat) (i : nat)
  : gmap string (gmap number FileLocationData) * nat :=
  let '(fileLocationsMap, lastMatchedLineIndex) := st in
  let line := nth i lines "" in
  if bool_decide (is_Some (SkipRegExp line)) then st
  else
    match pathRegex line with
    | Some pathMatch =>
        if (3 <=? length pathMatch)%nat then
          let filePath := group pathMatch 1 in
          let lineNumber := parseInt (group pathMatch 2) (Some 10) in
          (setLocation fileLocationsMap filePath lineNumber
             {| originalFileIndex := Z.of_nat i;
                highlightLineCount := Z.of_nat lastMatchedLineIndex - Z.of_nat i |},
           i)
        else (fileLocationsMap, i)
    | None => (fileLocationsMap, i)
    end.

(** The loop over the lines, last line first. *)
Definition extractLines (pathRegex SkipRegExp : RegExp) (lines : list string)
    (fileLocationsMap : gmap string (gmap number FileLocationData))
  : gmap string (gmap number FileLocationData) :=
  fst (foldl (extractStep pathRegex SkipRegExp lines)
         (fileLocationsMap, length lines) (descending (length lines))).

(** The state of the loop after its first [d] iterations. *)
Definition extractAfter (pathRegex SkipRegExp : RegExp) (lines : list string)
    (fileLocationsMap : gmap string (gmap number FileLocationData)) (d : nat)
  : gmap string (gmap number FileLocationData) * nat :=
  foldl (extractStep pathRegex SkipRegExp lines)
    (fileLocationsMap, length lines) (take d (descending (length lines))).

(** [extractFileLocations]: the map after the call and the calls made. *)
Definition extractFileLocations (h : Host) (configFilePath : string)
    (fileLocationsMap : gmap string (gmap number FileLocationData))
    (pathRegex SkipRegExp : RegExp)
  : gmap string (gmap number FileLocationData) * list Effect :=
  if negb (existsSync h configFilePath) then
    (fileLocationsMap,
     [ExistsSync configFilePath;
      ShowErrorMessage ("文件未找到: " +:+ configFilePath)])
  else
    match readFile h configFilePath with
    | inl fileContent =>
        (extractLines pathRegex SkipRegExp (splitLines fileContent) fileLocationsMap,
         [ExistsSync configFilePath; ReadFile configFilePath])
    | inr message =>
        (fileLocationsMap,
         [ExistsSync configFilePath; ReadFile configFilePath;
          ShowErrorMessage ("读取文件失败: " +:+ configFilePath +:+ " - " +:+ message)])
    end.

(** [fileLocationsMap.get(filePath)?.get(lineNumber)] *)
Definition lookupLocation (fileLocationsMap : gmap string (gmap number FileLocationData))
    (filePath : string) (lineNumber : number) : option FileLocationData :=
  fileLocationsMap !! filePath ≫= fun lineMap => lineMap !! lineNumber.

(** The key under which the loop files a line: none for a skipped line and
    for a line on which the path expression does not have its two groups. *)
Definition tokenOf (pathRegex SkipRegExp : RegExp) (line : string)
  : option (string * number) :=
  if bool_decide (is_Some (SkipRegExp line)) then None
  else
    match pathRegex line with
    | Some pathMatch =>
        if (3 <=? length pathMatch)%nat
        then Some (group pathMatch 1, parseInt (group pathMatch 2) (Some 10))
        else None
    | None => None
    end.

(** The index of the first line of [ls] that is not skipped, [ls] being
    the lines from index [k] on; the number of lines when all are skipped. *)
Fixpoint firstKept (SkipRegExp : RegExp) (ls : list string) (k : nat) : nat :=
  match ls with
  | [] => k
  | l :: rest =>
      if bool_decide (is_Some (SkipRegExp l)) then firstKept SkipRegExp rest (S k)
      else k
  end.

Definition boundary (SkipRegExp : RegExp) (lines : list string) (k : nat) : nat :=
  firstKept SkipRegExp (drop k lines) k.

(** The entry the loop writes for a token on line [i]: it spans the lines
    from [i] up to the next line below that is not skipped. *)
Definition entryAt (SkipRegExp : RegExp) (lines : list string) (i : nat)
  : FileLocationData :=
  {| originalFileIndex := Z.of_nat i;
     highlightLineCount := Z.of_nat (boundary SkipRegExp lines (S i)) - Z.of_nat i |}.

(** ** extension.ts: the state of the extension *)

(** [class document]: one side of the synchronisation.  [oldlines] is
    only ever assigned an editor's active line. *)
Record document : Type := {
  editor : option TextEditor;
  doc : option TextDocument;          (* the field [document] *)
  light : bool;
  line : option number;
  oldlines : option nat;
  path : option string
}.

(** [class configuration]; the mode flags are [true] when the feature is
    off, and [intercept] is the re-entrancy latch.  [osName] is assigned by
    [activate] before any handler is registered. *)
Record configuration : Type := {
  filepath : string;
  pathRegex : RegExp;
  skip : RegExp;
  osName : string;
  isFeatureEnabled : bool;
  isFeatureEnabled1 : bool;
  intercept : bool;
  state : bool;
  error : bool
}.

(** [class hashtable] *)
Record hashtable : Type := {
  fileLocationsMap : gmap string (gmap number FileLocationData);
  currentActiveFileLocationMap : gmap number FileLocationData;
  locationData : option FileLocationData
}.

(** The module-level variables. *)
Record Globals : Type := {
  masterfile : document;
  assistantfile : document;
  config : configuration;
  table : hashtable
}.

Definition set_editor (v : option TextEditor) (d : document) : document :=
  {| editor := v; doc := doc d; light := light d; line := line d;
     oldlines := oldlines d; path := path d |}.
Definition set_doc (v : option TextDocument) (d : document) : document :=
  {| editor := editor d; doc := v; light := light d; line := line d;
     oldlines := oldlines d; path := path d |}.
Definition set_light (v : bool) (d : document) : document :=
  {| editor := editor d; doc := doc d; light := v; line := line d;
     oldlines := oldlines d; path := path d |}.
Definition set_line (v : option number) (d : document) : document :=
  {| editor := editor d; doc := doc d; light := light d; line := v;
     oldlines := oldlines d; path := path d |}.
Definition set_oldlines (v : option nat) (d : document) : document :=
  {| editor := editor d; doc := doc d; light := light d; line := line d;
     oldlines := v; path := path d |}.
Definition set_path (v : option string) (d : document) : document :=
  {| editor := editor d; doc := doc d; light := light d; line := line d;
     oldlines := oldlines d; path := v |}.

Definition set_isFeatureEnabled (v : bool) (c : configuration) : configuration :=
  {| filepath := filepath c; pathRegex := pathRegex c; skip := skip c;
     osName := osName c; isFeatureEnabled := v;
     isFeatureEnabled1 := isFeatureEnabled1 c; intercept := intercept c;
     state := state c; error := error c |}.
Definition set_isFeatureEnabled1 (v : bool) (c : configuration) : configuration :=
  {| filepath := filepath c; pathRegex := pathRegex c; skip := skip c;
     osName := osName c; isFeatureEnabled := isFeatureEnabled c;
     isFeatureEnabled1 := v; intercept := intercept c;
     state := state c; error := error c |}.
Definition set_intercept (v : bool) (c : configuration) : configuration :=
  {| filepath := filepath c; pathRegex := pathRegex c; skip := skip c;
     osName := osName c; isFeatureEnabled := isFeatureEnabled c;
     isFeatureEnabled1 := isFeatureEnabled1 c; intercept := v;
     state := state c; error := error c |}.
Definition set_state (v : bool) (c : configuration) : configuration :=
  {| filepath := filepath c; pathRegex := pathRegex c; skip := skip c;
     osName := osName c; isFeatureEnabled := isFeatureEnabled c;
     isFeatureEnabled1 := isFeatureEnabled1 c; intercept := intercept c;
     state := v; error := error c |}.
Definition set_error (v : bool) (c : configuration) : configuration :=
  {| filepath := filepath c; pathRegex := pathRegex c; skip := skip c;
     osName := osName c; isFeatureEnabled := isFeatureEnabled c;
     isFeatureEnabled1 := isFeatureEnabled1 c; intercept := intercept c;
     state := state c; error := v |}.

Definition set_fileLocationsMap (v : gmap string (gmap number FileLocationData))
    (t : hashtable) : hashtable :=
  {| fileLocationsMap := v;
     currentActiveFileLocationMap := currentActiveFileLocationMap t;
     locationData := locationData t |}.
Definition set_currentActiveFileLocationMap (v : gmap number FileLocationData)
    (t : hashtable) : hashtable :=
  {| fileLocationsMap := fileLocationsMap t;
     currentActiveFileLocationMap := v;
     locationData := locationData t |}.
Definition set_locationData (v : option FileLocationData) (t : hashtable) : hashtable :=
  {| fileLocationsMap := fileLocationsMap t;
     currentActiveFileLocationMap := currentActiveFileLocationMap t;
     locationData := v |}.

Definition onMaster (f : document -> document) (g : Globals) : Globals :=
  {| masterfile := f (masterfile g); assistantfile := assistantfile g;
     config := config g; table := table g |}.
Definition onAssistant (f : document -> document) (g : Globals) : Globals :=
  {| masterfile := masterfile g; assistantfile := f (assistantfile g);
     config := config g; table := table g |}.
Definition onConfig (f : configuration -> configuration) (g : Globals) : Globals :=
  {| masterfile := masterfile g; assistantfile := assistantfile g;
     config := f (config g); table := table g |}.
Definition onTable (f : hashtable -> hashtable) (g : Globals) : Globals :=
  {| masterfile := masterfile g; assistantfile := assistantfile g;
     config := config g; table := f (table g) |}.

(** ** Control flow of a handler body *)

(** How a piece of a handler body ends: it falls through with a value, it
    executes [return;], or it throws. *)
Inductive Completion (A : Type) : Type :=
  | Normal (a : A)
  | Return
  | Throw.
#[global] Arguments Normal {A} a.
#[global] Arguments Return {A}.
#[global] Arguments Throw {A}.

(** The module-level variables and the calls made to the host so far. *)
Definition World : Type := Globals * list Effect.

Definition M (A : Type) : Type := World -> Completion A * World.

#[global] Instance M_ret : MRet M := fun A a w => (Normal a, w).

#[global] Instance M_bind : MBind M := fun A B f m w =>
  match m w with
  | (Normal a, w') => f a w'
  | (Return, w') => (Return, w')
  | (Throw, w') => (Throw, w')
  end.

Definition getGlobals : M Globals := fun w => (Normal (fst w), w).
Definition update (f : Globals -> Globals) : M unit :=
  fun w => (Normal tt, (f (fst w), snd w)).
Definition call (e : Effect) : M unit :=
  fun w => (Normal tt, (fst w, (snd w ++ [e])%list)).
Definition returnVoid {A} : M A := fun w => (Return, w).
Definition throwError {A} : M A := fun w => (Throw, w).

(** [!s] for a value of type [string | undefined]. *)
Definition falsy (s : option string) : bool :=
  match s with
  | None => true
  | Some t => bool_decide (t = "")
  end.

(** The upward loop of the handler over the master document, [n] lines
    still to visit (line [n - 1] next): it stops at the first line that is
    not skipped and on which the path expression has its two groups. *)
Inductive ScanResult : Type :=
  | ScanExhausted
  | ScanFound (pathMatch : RegExpMatchArray)
  | ScanThrow.

Fixpoint scanUp (text : nat -> option string) (pathRe skipRe : RegExp) (n : nat)
  : ScanResult :=
  match n with
  | O => ScanExhausted
  | S i =>
      match text i with
      | None => ScanThrow
      | Some t =>
          if bool_decide (is_Some (skipRe t)) then scanUp text pathRe skipRe i
          else
            match pathRe t with
            | Some pathMatch =>
                if (3 <=? length pathMatch)%nat then ScanFound pathMatch
                else scanUp text pathRe skipRe i
            | None => scanUp text pathRe skipRe i
            end
      end
  end.

(** Where the synchronous part of the handler body stops: ready for the
    final block, or suspended in [await openFileAndJumpToLine(...)] with the
    match array of the loop still live. *)
Inductive Next : Type :=
  | Commit
  | Await (pathMatch : RegExpMatchArray).

(** What an invocation of the handler has come to: it has finished, or it
    is suspended and owns the latch. *)
Inductive Step : Type :=
  | Finished (w : World)
  | Awaiting (pathMatch : RegExpMatchArray) (w : World).

(** [if (x.light) { x.editor.setDecorations(config.colour, []); x.light = false; }] *)
Definition clearHighlight (side : Globals -> document)
    (on : (document -> document) -> Globals -> Globals) : M unit :=
  g ← getGlobals;
  if light (side g) then
    match editor (side g) with
    | Some e => call (SetDecorations e []);; update (on (set_light false))
    | None => throwError
    end
  else mret tt.

(** The first statement of the handler body: an editor that is neither
    the master nor the assistant becomes the assistant. *)
Definition roleResolution (h : Host) (ev : TextEditor) : M unit :=
  g ← getGlobals;
  if negb (bool_decide (editor (masterfile g) = Some ev))
     && negb (bool_decide (editor (assistantfile g) = Some ev)) then
    update (onAssistant (set_editor (Some ev)));;
    let p := getActiveEditorFilePath (osName (config g)) (fsPath h ev) in
    update (onAssistant (set_path p));;
    if falsy p then returnVoid
    else
      match fileLocationsMap (table g) !! default "" p with
      | None => returnVoid
      | Some oncemap => update (onTable (set_currentActiveFileLocationMap oncemap))
      end
  else mret tt.

(** The statements after the direction dispatch. *)
Definition commit (h : Host) : M unit :=
  g ← getGlobals;
  match editor (masterfile g), editor (assistantfile g) with
  | Some m, Some a =>
      update (onMaster (set_oldlines (Some (activeLine h m))));;
      update (onAssistant (set_oldlines (Some (activeLine h a))));;
      call (HighlightLines a (line (assistantfile g)) 1);;
      match locationData (table g) with
      | Some data =>
          call (HighlightLines m (Some (Num (originalFileIndex data)))
                  (highlightLineCount data));;
          update (onMaster (set_light true));;
          update (onAssistant (set_light true))
      | None => throwError
      end
  | _, _ => throwError
  end.

(** Is the number below zero?  [NaN] is not. *)
Definition negativeLine (x : number) : bool :=
  match x with
  | Num z => z <? 0
  | NaN => false
  end.

(** [document.update(line)], the argument of every [revealRange]: it
    builds [new vscode.Position(line, 0)], which the host refuses with an
    exception when the line is below zero. *)
Definition document_update (line : number) : M unit :=
  if negativeLine line then throwError else mret tt.

(** assistant -> master: the assistant's line changed. *)
Definition assistantMoved (h : Host) (m a : TextEditor) : M Next :=
  update (onAssistant (set_oldlines (Some (activeLine h a))));;
  g ← getGlobals;
  let data := currentActiveFileLocationMap (table g) !! Num (Z.of_nat (activeLine h a) + 1) in
  update (onTable (set_locationData data));;
  update (onAssistant (set_line (Some (Num (Z.of_nat (activeLine h a))))));;
  match data with
  | None => returnVoid
  | Some d =>
      document_update (Num (originalFileIndex d));;
      call (RevealRange m (Num (originalFileIndex d)));;
      mret Commit
  end.

(** master -> assistant: the upward scan over the master document. *)
Definition masterMoved (h : Host) (m a : TextEditor) : M Next :=
  update (onMaster (set_oldlines (Some (activeLine h m))));;
  g ← getGlobals;
  match scanUp (lineAt h m) (pathRegex (config g)) (skip (config g))
          (S (activeLine h m)) with
  | ScanThrow => throwError
  | ScanExhausted => mret Commit
  | ScanFound pathMatch =>
      if bool_decide (Some (group pathMatch 1) = path (assistantfile g)) then
        update (onTable (set_locationData
          (currentActiveFileLocationMap (table g) !! parseInt (group pathMatch 2) None)));;
        let target := minusOne (parseFloat (group pathMatch 2)) in
        update (onAssistant (set_line (Some target)));;
        document_update target;;
        call (RevealRange a target);;
        mret Commit
      else
        call (OpenFileAndJumpToLine (group pathMatch 1)
                (minusOne (parseInt (group pathMatch 2) None)));;
        mret (Await pathMatch)
  end.

(** The handler body after the role resolution: the no-op filter, the
    highlight reset, the direction dispatch and the final block. *)
Definition dispatch (h : Host) : M Next :=
  g ← getGlobals;
  match editor (assistantfile g), editor (masterfile g) with
  | Some a, Some m =>
      if bool_decide (Some (activeLine h m) = oldlines (masterfile g))
         && bool_decide (Some (activeLine h a) = oldlines (assistantfile g))
      then returnVoid
      else
        clearHighlight masterfile onMaster;;
        clearHighlight assistantfile onAssistant;;
        next ← (if negb (bool_decide (oldlines (assistantfile g) = Some (activeLine h a)))
                then assistantMoved h m a
                else if negb (isFeatureEnabled1 (config g)) then masterMoved h m a
                else returnVoid);
        match next with
        | Commit => commit h;; mret Commit
        | Await pathMatch => mret (Await pathMatch)
        end
  | _, _ => returnVoid
  end.

(** The body of the [try] block up to its first suspension. *)
Definition handlerBody (h : Host) (ev : TextEditor) : M Next :=
  roleResolution h ev;; dispatch h.

(** The body of the [try] block after [openFileAndJumpToLine] has
    resolved to [onceeditor], the host being then as [h] shows it. *)
Definition resumeBody (h : Host) (pathMatch : RegExpMatchArray)
    (onceeditor : option TextEditor) : M Next :=
  match onceeditor with
  | None => returnVoid
  | Some e =>
      update (onAssistant (set_editor (Some e)));;
      g ← getGlobals;
      let p := getActiveEditorFilePath (osName (config g)) (fsPath h e) in
      update (onAssistant (set_path p));;
      if falsy p then returnVoid
      else
        call (LoggerLog (default "" p));;
        match fileLocationsMap (table g) !! group pathMatch 1 with
        | None => returnVoid
        | Some oncemap =>
            update (onTable (set_currentActiveFileLocationMap oncemap));;
            update (onTable (set_locationData
                               (oncemap !! parseInt (group pathMatch 2) None)));;
            update (onAssistant (set_line (Some (minusOne (parseFloat (group pathMatch 2))))));;
            commit h;;
            mret Commit
        end
  end.

(** [catch { showInformationMessage('Execution failed') }] and
    [finally { config.intercept = false; }] around a piece of the body. *)
Definition release (w : World) : World :=
  (onConfig (set_intercept false) (fst w), snd w).

Definition settle (r : Completion Next * World) : Step :=
  match r with
  | (Normal (Await pathMatch), w) => Awaiting pathMatch w
  | (Normal Commit, w) => Finished (release w)
  | (Return, w) => Finished (release w)
  | (Throw, w) =>
      Finished (release (fst w, (snd w ++ [ShowInformationMessage "Execution failed"])%list))
  end.

(** The listener of [onDidChangeTextEditorSelection], from the event to
    the end of the handler or to its suspension. *)
Definition selectionChange (h : Host) (ev : TextEditor) (w : World) : Step :=
  let c := config (fst w) in
  if isFeatureEnabled c || negb (bool_decide (scheme h ev = "file"))
     || intercept c || error c
  then Finished w
  else settle (handlerBody h ev (onConfig (set_intercept true) (fst w), snd w)).

(** The rest of a suspended invocation. *)
Definition selectionChangeResume (h : Host) (pathMatch : RegExpMatchArray)
    (onceeditor : option TextEditor) (w : World) : Step :=
  settle (resumeBody h pathMatch onceeditor w).

(** ** extension.ts: the commands *)

Definition calls (es : list Effect) : M unit :=
  fun w => (Normal tt, (fst w, (snd w ++ es)%list)).

(** [jumptrace.close]: [try { ... } finally { config.intercept = false; }] *)
Definition toggleFeatureCommand (w : World) : Completion unit * World :=
  let r :=
    (update (onConfig (set_intercept true));;
     update (onConfig (set_isFeatureEnabled true));;
     update (onConfig (set_isFeatureEnabled1 true));;
     update (onConfig (set_state true));;
     clearHighlight masterfile onMaster;;
     clearHighlight assistantfile onAssistant;;
     call (ShowInformationMessage "Mapping has been turned off")) w in
  (fst r, release (snd r)).

(** The [try] block of [jumptrace.switchover], its awaits run to
    completion against the host [h]. *)
Definition switchoverBody (h : Host) : M unit :=
  update (onConfig (set_intercept true));;
  g ← getGlobals;
  update (onConfig (set_state (negb (state (config g)))));;
  (if state (config g)
   then update (onConfig (set_isFeatureEnabled false));;
        call (ShowInformationMessage "Single mapping has been enabled")
   else update (onConfig (set_isFeatureEnabled false));;
        update (onConfig (set_isFeatureEnabled1 false));;
        call (ShowInformationMessage "Double mapping has been activated"));;
  (if (size (fileLocationsMap (table g)) =? 0)%nat then
     let r := extractFileLocations h (filepath (config g)) (fileLocationsMap (table g))
                (pathRegex (config g)) (skip (config g)) in
     calls (snd r);;
     update (onTable (set_fileLocationsMap (fst r)));;
     call (OpenTextDocument (filepath (config g)));;
     match openTextDocument h (filepath (config g)) with
     | None => throwError
     | Some d =>
         update (onMaster (set_doc (Some d)));;
         call (ShowTextDocument d);;
         match showTextDocument h d with
         | None => throwError
         | Some e =>
             update (onMaster (set_editor (Some e)));;
             update (onAssistant (set_editor (Some e)))
         end
     end
   else mret tt);;
  g' ← getGlobals;
  match doc (masterfile g') with
  | None => returnVoid
  | Some d =>
      match find (fun e => bool_decide
                    (Some (fsPath h e) = fsPath h <$> editor (masterfile g')))
              (visibleTextEditors h) with
      | Some _ => mret tt
      | None =>
          call (ShowTextDocument d);;
          match showTextDocument h d with
          | None => throwError
          | Some e => update (onMaster (set_editor (Some e)))
          end
      end
  end.

(** [jumptrace.switchover] with its [catch] and [finally]. *)
Definition toggleFeatureCommand1 (h : Host) (w : World) : World :=
  match switchoverBody h w with
  | (Throw, w') =>
      release (onConfig (set_error true) (fst w'),
               (snd w' ++ [ShowInformationMessage "config error}"])%list)
  | (_, w') => release w'
  end.

(** ** Notions used to state the properties *)

(** The match array on which the upward scan stops at a line, if it stops
    there. *)
Definition candidate (pathRe skipRe : RegExp) (t : string) : option RegExpMatchArray :=
  if bool_decide (is_Some (skipRe t)) then None
  else
    match pathRe t with
    | Some pathMatch => if (3 <=? length pathMatch)%nat then Some pathMatch else None
    | None => None
    end.

(** The calls that clear the highlights of the two sides. *)
Definition clears (g : Globals) (m a : TextEditor) : list Effect :=
  (if light (masterfile g) then [SetDecorations m []] else [])
  ++ (if light (assistantfile g) then [SetDecorations a []] else []).

(** The calls that look at the reference file on disk. *)
Definition readsFile (e : Effect) : bool :=
  match e with
  | ExistsSync _ | ReadFile _ | OpenTextDocument _ => true
  | _ => false
  end.

(** The world an invocation has reached. *)
Definition worldOf (s : Step) : World :=
  match s with
  | Finished w => w
  | Awaiting _ w => w
  end.

End Extension.

(** ** realize.ts: highlighting *)

(** The body of the loop of [highlightLines]: the line numbers
    [z, z+1, ...] of [k] lines, each fetched with [document.lineAt], which
    throws on a line the document does not have. *)
Fixpoint collectRanges (text : nat -> option string) (z : Z) (k : nat)
  : option (list Z) :=
  match k with
  | O => Some []
  | S k' =>
      if z <? 0 then None
      else
        match text (Z.to_nat z) with
        | None => None
        | Some _ => cons z <$> collectRanges text (z + 1) k'
        end
  end.

(** [highlightLines(editor, startLine, lineCount, decorationType)]: the
    calls it makes.  With [startLine] undefined or [NaN] the loop test is
    false at once; [message] is the message of the error that [lineAt]
    throws. *)
Definition highlightLines (h : Host) (message : string) (e : TextEditor)
    (startLine : option number) (lineCount : Z) : list Effect :=
  match startLine with
  | Some (Num z) =>
      match collectRanges (lineAt h e) z (Z.to_nat lineCount) with
      | Some decorations => [SetDecorations e decorations]
      | None => [ShowErrorMessage ("高亮行失败: " +:+ message)]
      end
  | _ => [SetDecorations e []]
  end.

(** ** Further notions used to state the properties *)

(** The lines joined by line feeds. *)
Fixpoint joinLines (ls : list string) : string :=
  match ls with
  | [] => ""
  | [l] => l
  | l :: rest => l +:+ String LF (joinLines rest)
  end.

(** Does the character occur in the string? *)
Fixpoint occurs (c : ascii) (s : string) : bool :=
  match s with
  | EmptyString => false
  | String c' rest => bool_decide (c' = c) || occurs c rest
  end.

(** Is the text free of the sequence CR LF? *)
Fixpoint noCRLF (s : string) : bool :=
  match s with
  | EmptyString => true
  | String c rest =>
      match rest with
      | String c' _ => negb (bool_decide (c = CR) && bool_decide (c' = LF))
      | EmptyString => true
      end && noCRLF rest
  end.

(** A side that is flagged as highlighted has its editor. *)
Definition lightsHaveEditors (g : Globals) : Prop :=
  (light (masterfile g) = true -> is_Some (editor (masterfile g)))
  /\ (light (assistantfile g) = true -> is_Some (editor (assistantfile g))).

(** ** Fixtures *)

(** A host whose file system holds one reference file with the given
    text, and nothing else. *)
Definition hostWithFile (file text : string) : Host :=
  {| scheme := fun _ => "file";
     fsPath := fun _ => "";
     activeLine := fun _ => O;
     lineAt := fun _ _ => None;
     existsSync := fun f => bool_decide (f = file);
     readFile := fun f => if decide (f = file) then inl text else inr "ENOENT";
     openTextDocument := fun _ => None;
     showTextDocument := fun _ => None;
     visibleTextEditors := [] |}.

(** The text of the lines ["a.c:1"], ["  note"], ["a.c:2"]. *)
Definition noteText : string :=
  "a.c:1" +:+ String LF ("  note" +:+ String LF "a.c:2").

(** A text in which the key of ["a.c:7"] is filed on lines 1 and 3. *)
Definition twiceText : string :=
  "b.c:1" +:+ String LF ("a.c:7" +:+ String LF ("  note" +:+ String LF "a.c:7")).

(** An index with one entry, to be handed to a failing extraction. *)
Definition oneEntryIndex : gmap string (gmap number FileLocationData) :=
  {[ "x.c" := {[ Num 1 := {| originalFileIndex := 0; highlightLineCount := 1 |} ]} ]}.

(** A Windows reference file whose only line names its source file with
    a lower-case drive letter and backslashes. *)
Definition windowsIndex : gmap string (gmap number FileLocationData) :=
  extractLines parseIntDigits win32PathRegex skipLeadingSpace ["c:\src\a.c:10"] ∅.

(** A session: the reference file [/ref.log] is shown by editor 1, the
    source files [/src/a.c] and [/src/b.c] by editors 2 and 3. *)
Definition masterEditor : TextEditor := 1%nat.
Definition sourceEditorA : TextEditor := 2%nat.
Definition sourceEditorB : TextEditor := 3%nat.
Definition referenceDocument : TextDocument := 10%nat.

Definition sessionText : string :=
  "/src/a.c:10" +:+ String LF ("    asm0" +:+ String LF "/src/b.c:12").

Definition sessionHost (masterLine assistantLine : nat) : Host :=
  {| scheme := fun _ => "file";
     fsPath := fun e =>
       if decide (e = masterEditor) then "/ref.log"
       else if decide (e = sourceEditorA) then "/src/a.c"
       else "/src/b.c";
     activeLine := fun e =>
       if decide (e = masterEditor) then masterLine else assistantLine;
     lineAt := fun e i =>
       if decide (e = masterEditor) then splitLines sessionText !! i else None;
     existsSync := fun f => bool_decide (f = "/ref.log");
     readFile := fun f => if decide (f = "/ref.log") then inl sessionText else inr "ENOENT";
     openTextDocument := fun f =>
       if decide (f = "/ref.log") then Some referenceDocument else None;
     showTextDocument := fun d =>
       if decide (d = referenceDocument) then Some masterEditor else None;
     visibleTextEditors := [masterEditor; sourceEditorA] |}.

Definition sessionIndex : gmap string (gmap number FileLocationData) :=
  extractLines parseIntDigits posixPathRegex skipLeadingSpace (splitLines sessionText) ∅.

(** The master on line 0 and the assistant, [/src/a.c], on line 9, both
    highlighted; [single] says that bidirectional mapping is off, [held]
    that the latch is taken. *)
Definition sessionGlobals (single held : bool) : Globals :=
  {| masterfile :=
       {| editor := Some masterEditor; doc := Some referenceDocument;
          light := true; line := None; oldlines := Some 0%nat; path := None |};
     assistantfile :=
       {| editor := Some sourceEditorA; doc := None; light := true;
          line := Some (Num 9); oldlines := Some 9%nat; path := Some "/src/a.c" |};
     config :=
       {| filepath := "/ref.log"; pathRegex := posixPathRegex;
          skip := skipLeadingSpace; osName := "Linux";
          isFeatureEnabled := false; isFeatureEnabled1 := single;
          intercept := held; state := negb single; error := false |};
     table :=
       {| fileLocationsMap := sessionIndex;
          currentActiveFileLocationMap := default ∅ (sessionIndex !! "/src/a.c");
          locationData := lookupLocation sessionIndex "/src/a.c" (Num 10) |} |}.

(** The extension as it is before the first command: everything off, no
    editor known, the index empty. *)
Definition freshDocument : document :=
  {| editor := None; doc := None; light := false; line := None;
     oldlines := None; path := None |}.

Definition freshGlobals (file : string) : Globals :=
  {| masterfile := freshDocument;
     assistantfile := freshDocument;
     config :=
       {| filepath := file; pathRegex := posixPathRegex;
          skip := skipLeadingSpace; osName := "Linux";
          isFeatureEnabled := true; isFeatureEnabled1 := true;
          intercept := true; state := true; error := false |};
     table :=
       {| fileLocationsMap := ∅; currentActiveFileLocationMap := ∅;
          locationData := None |} |}.

(** A host whose reference file [/empty.log] has no line that names a
    source file. *)
Definition emptyLogHost : Host :=
  {| scheme := fun _ => "file";
     fsPath := fun _ => "/empty.log";
     activeLine := fun _ => O;
     lineAt := fun _ _ => Some "nothing to see";
     existsSync := fun f => bool_decide (f = "/empty.log");
     readFile := fun f =>
       if decide (f = "/empty.log") then inl "nothing to see" else inr "ENOENT";
     openTextDocument := fun _ => Some referenceDocument;
     showTextDocument := fun _ => Some masterEditor;
     visibleTextEditors := [masterEditor] |}.

(** The session host, but every editor other than the master shows
    [/src/zzz.c], a file the reference file does not name. *)
Definition strayHost : Host :=
  {| scheme := fun _ => "file";
     fsPath := fun e => if decide (e = masterEditor) then "/ref.log" else "/src/zzz.c";
     activeLine := fun _ => O;
     lineAt := fun e i =>
       if decide (e = masterEditor) then splitLines sessionText !! i else None;
     existsSync := fun f => bool_decide (f = "/ref.log");
     readFile := fun f => if decide (f = "/ref.log") then inl sessionText else inr "ENOENT";
     openTextDocument := fun _ => None;
     showTextDocument := fun _ => None;
     visibleTextEditors := [masterEditor] |}.

(** The session host, but the master's document names line 0 of
    [/src/a.c], a line no editor has, above a skipped line. *)
Definition lineZeroText : string :=
  "/src/a.c:0" +:+ String LF "    asm0".

Definition lineZeroHost : Host :=
  {| scheme := fun _ => "file";
     fsPath := fsPath (sessionHost 1 9);
     activeLine := activeLine (sessionHost 1 9);
     lineAt := fun e i =>
       if decide (e = masterEditor) then splitLines lineZeroText !! i else None;
     existsSync := existsSync (sessionHost 1 9);
     readFile := fun f => if decide (f = "/ref.log") then inl lineZeroText else inr "ENOENT";
     openTextDocument := openTextDocument (sessionHost 1 9);
     showTextDocument := showTextDocument (sessionHost 1 9);
     visibleTextEditors := [masterEditor; sourceEditorA] |}.

(** * Properties *)

(** ** Path normalisation *)

Lemma replaceBackslashes_idem (s : string) :
  replaceBackslashes (replaceBackslashes s) = replaceBackslashes s.
Proof.
  induction s as [|c s IH]; simpl; [reflexivity|].
  rewrite IH. f_equal.
  destruct (decide (c = backslash)) as [->|Hc].
  - reflexivity.
  - destruct (decide (c = backslash)); congruence.
Qed.

Lemma replaceBackslashes_empty (s : string) :
  replaceBackslashes s = "" -> s = "".
Proof. destruct s; simpl; congruence. Qed.

Lemma toUpperCase_letter (d : ascii) :
  isLetter d = true ->
  isLetter (toUpperCase d) = true
  /\ toUpperCase (toUpperCase d) = toUpperCase d
  /\ toUpperCase d <> backslash.
Proof.
  destruct d as [[] [] [] [] [] [] [] []]; vm_compute; intros H;
    try discriminate H; repeat split; discriminate.
Qed.

Lemma windowsPathRegex_Some (s : string) (d : ascii) (rest : string) :
  windowsPathRegex s = Some (d, rest) ->
  s = String d (String colon rest) /\ isLetter d = true
  /\ exists tl, rest = String slash tl /\ dotStarToEnd tl = true.
Proof.
  destruct s as [|d0 [|c1 [|c2 tl]]]; simpl; try discriminate.
  destruct (isLetter d0) eqn:Hl; simpl; [|discriminate].
  destruct (bool_decide (c1 = colon)) eqn:H1; simpl; [|discriminate].
  destruct (bool_decide (c2 = slash)) eqn:H2; simpl; [|discriminate].
  destruct (dotStarToEnd tl) eqn:H3; simpl; [|discriminate].
  apply bool_decide_eq_true_1 in H1, H2. subst c1 c2.
  intros [= <- <-]. eauto.
Qed.

(** A normalised path is a fixed point of the normalisation. *)
Lemma getActiveEditorFilePath_fixed (osName p r : string) :
  getActiveEditorFilePath osName p = Some r ->
  getActiveEditorFilePath osName r = Some r.
Proof.
  unfold getActiveEditorFilePath.
  destruct (decide (p = "")) as [|Hp]; [discriminate|].
  assert (Hne : replaceBackslashes p <> "")
    by (intros E; apply Hp, replaceBackslashes_empty, E).
  pose proof (replaceBackslashes_idem p) as Hid.
  destruct (decide (osName = "Windows")) as [Hw|Hw].
  - destruct (windowsPathRegex (replaceBackslashes p)) as [[d rest]|] eqn:Hm.
    + intros [= <-].
      destruct (windowsPathRegex_Some _ _ _ Hm) as (Hs & Hl & tl & -> & Hdot).
      destruct (toUpperCase_letter d Hl) as (Hl' & Hup & Hbs).
      rewrite Hs in Hid. simpl in Hid.
      injection Hid as _ Htl.
      destruct (decide _) as [|_]; [discriminate|].
      simpl.
      destruct (decide (toUpperCase d = backslash)) as [|_]; [contradiction|].
      rewrite Htl, Hl', Hdot. simpl.
      rewrite Hup. reflexivity.
    + intros [= <-].
      destruct (decide _) as [|_]; [contradiction|].
      rewrite Hid, Hm. reflexivity.
  - intros [= <-].
    destruct (decide _) as [|_]; [contradiction|].
    rewrite Hid. reflexivity.
Qed.

(** C8. Normalising twice is normalising once, for every platform name and
    every path ([undefined] stays [undefined]); on Windows ["c:/x"] and
    ["C:\x"] have the same normal form, ["C:/x"]; the empty path has
    none. *)
Theorem getActiveEditorFilePath_idempotent :
  (forall osName p,
      getActiveEditorFilePath osName p ≫= getActiveEditorFilePath osName
      = getActiveEditorFilePath osName p)
  /\ getActiveEditorFilePath "Windows" "c:/x"
     = getActiveEditorFilePath "Windows" "C:\x"
  /\ getActiveEditorFilePath "Windows" "C:\x" = Some "C:/x"
  /\ (forall osName, getActiveEditorFilePath osName "" = None).
Proof.
  split; [|split; [|split]]; try reflexivity.
  intros osName p.
  destruct (getActiveEditorFilePath osName p) as [r|] eqn:E; simpl; [|reflexivity].
  eapply getActiveEditorFilePath_fixed, E.
Qed.

(** The normal form of a path has no backslash in it. *)
Lemma replaceBackslashes_shape (s : string) :
  occurs backslash (replaceBackslashes s) = false
  /\ String.length (replaceBackslashes s) = String.length s.
Proof.
  induction s as [|c s [IH1 IH2]]; [done|]. cbn.
  rewrite IH1, IH2. split; [|done].
  destruct (decide (c = backslash)) as [->|Hc]; by rewrite bool_decide_eq_false_2.
Qed.

Lemma getActiveEditorFilePath_not_falsy osName p r :
  getActiveEditorFilePath osName p = Some r -> falsy (Some r) = false.
Proof.
  unfold getActiveEditorFilePath. intros Hp. cbn.
  apply bool_decide_eq_false_2. intros ->.
  destruct (decide _) as [|Hne]; [discriminate|].
  destruct (decide _); [destruct (windowsPathRegex _) as [[]|]|];
    injection Hp as Hp; try discriminate;
    by apply replaceBackslashes_empty in Hp.
Qed.

(** X1. A normalised path contains no backslash, is as long as the path
    it comes from, and is never the empty string (so the handler's test
    [!assistantfile.path] only ever sees [undefined]). *)
Theorem normalised_path_shape osName p r :
  getActiveEditorFilePath osName p = Some r ->
  occurs backslash r = false
  /\ String.length r = String.length p
  /\ r <> "".
Proof.
  unfold getActiveEditorFilePath.
  destruct (decide (p = "")) as [|Hp]; [discriminate|].
  destruct (replaceBackslashes_shape p) as [Hocc Hlen].
  assert (Hne : replaceBackslashes p <> "")
    by (intros E; apply Hp, replaceBackslashes_empty, E).
  destruct (decide (osName = "Windows")) as [_|_];
    [destruct (windowsPathRegex (replaceBackslashes p)) as [[d rest]|] eqn:Hm|];
    intros [= <-]; try done.
  destruct (windowsPathRegex_Some _ _ _ Hm) as (Hs & Hl & tl & -> & Hdot).
  destruct (toUpperCase_letter d Hl) as (_ & _ & Hbs).
  rewrite Hs in Hocc, Hlen. cbn in *.
  rewrite bool_decide_eq_false_2 by done.
  apply orb_false_iff in Hocc as [_ Hocc]. done.
Qed.

Lemma startsWithLineTerminator_replace (s : string) :
  startsWithLineTerminator (replaceBackslashes s) = startsWithLineTerminator s.
Proof.
  destruct s as [|c [|c1 [|c2 s]]]; cbn; try done;
    repeat (case_decide; subst; try done; try discriminate);
    repeat (case_bool_decide; subst; try done; try discriminate).
Qed.

Lemma dotStarToEnd_replace (s : string) :
  dotStarToEnd (replaceBackslashes s) = dotStarToEnd s.
Proof.
  induction s as [|c s IH]; [done|].
  change (replaceBackslashes (String c s))
    with (String (if decide (c = backslash) then slash else c) (replaceBackslashes s)).
  cbn [dotStarToEnd]. rewrite IH. f_equal. f_equal.
  apply (startsWithLineTerminator_replace (String c s)).
Qed.

(** X2. On Windows a path made of a drive letter, a colon, a slash or a
    backslash and a rest without line terminators normalises to the
    upper-case drive letter, a colon, a slash and the rest with its
    backslashes turned into slashes: the case of the drive letter and the
    kind of the separators do not show in the result. *)
Theorem windows_drive_paths_normalise_alike d sep rest :
  isLetter d = true ->
  isSeparator sep = true ->
  dotStarToEnd rest = true ->
  getActiveEditorFilePath "Windows" (String d (String colon (String sep rest)))
  = Some (String (toUpperCase d)
            (String colon (String slash (replaceBackslashes rest)))).
Proof.
  intros Hl Hsep Hdot. unfold getActiveEditorFilePath.
  destruct (decide _) as [|_]; [discriminate|].
  destruct (decide _) as [_|]; [|done].
  destruct (toUpperCase_letter d Hl) as (_ & _ & Hbs).
  assert (Hd : d <> backslash).
  { intros ->. vm_compute in Hl. discriminate. }
  cbn [replaceBackslashes].
  destruct (decide (d = backslash)) as [|_]; [done|].
  destruct (decide (colon = backslash)) as [|_]; [discriminate|].
  assert ((if decide (sep = backslash) then slash else sep) = slash) as ->.
  { unfold isSeparator in Hsep. apply orb_true_iff in Hsep as [H|H];
      apply bool_decide_eq_true_1 in H; subst; by destruct (decide _). }
  unfold windowsPathRegex. rewrite Hl, dotStarToEnd_replace, Hdot.
  rewrite !bool_decide_eq_true_2 by done. reflexivity.
Qed.

(** ** Strings, lines and the default expressions *)

Lemma append_nil_r (s : string) : s +:+ "" = s.
Proof.
  induction s as [|c s IH]; [done|].
  change (String c (s +:+ "") = String c s). by f_equal.
Qed.

Lemma append_assoc (a b c : string) : (a +:+ b) +:+ c = a +:+ (b +:+ c).
Proof.
  induction a as [|x a IH]; [done|].
  change (String x ((a +:+ b) +:+ c) = String x (a +:+ (b +:+ c))). by f_equal.
Qed.

Lemma splitLinesFrom_cons s : forall acc,
  exists l rest, splitLinesFrom acc s = l :: rest.
Proof.
  induction s as [|c s IH]; intros acc; cbn [splitLinesFrom]; [eauto|].
  destruct (decide (c = LF)); [eauto|].
  destruct (decide (c = CR)); [|apply IH].
  destruct s as [|c' s']; [apply IH|].
  destruct (decide (c' = LF)); [eauto|apply IH].
Qed.

Lemma joinLines_cons a b s :
  joinLines (a :: splitLinesFrom b s) = a +:+ String LF (joinLines (splitLinesFrom b s)).
Proof. destruct (splitLinesFrom_cons s b) as (l & rest & ->). reflexivity. Qed.

Lemma splitLinesFrom_join s : forall acc,
  noCRLF s = true -> joinLines (splitLinesFrom acc s) = acc +:+ s.
Proof.
  induction s as [|c s IH]; intros acc Hs.
  - cbn. by rewrite append_nil_r.
  - cbn [noCRLF] in Hs. apply andb_true_iff in Hs as [Hhead Hs].
    cbn [splitLinesFrom].
    assert (Hstep : joinLines (splitLinesFrom (acc +:+ String c "") s)
                    = acc +:+ String c s).
    { rewrite (IH _ Hs), append_assoc. reflexivity. }
    destruct (decide (c = LF)) as [->|HnLF].
    + rewrite joinLines_cons, (IH "" Hs). reflexivity.
    + destruct (decide (c = CR)) as [->|HnCR]; [|exact Hstep].
      destruct s as [|c' s']; [exact Hstep|].
      destruct (decide (c' = LF)) as [->|]; [|exact Hstep].
      cbn in Hhead. discriminate Hhead.
Qed.

Lemma splitLinesFrom_no_LF s : forall acc l,
  occurs LF acc = false -> l ∈ splitLinesFrom acc s -> occurs LF l = false.
Proof.
  assert (Happ : forall acc c, occurs LF acc = false -> c <> LF ->
             occurs LF (acc +:+ String c "") = false).
  { induction acc as [|x acc IHacc]; intros c Hacc Hc.
    - change (occurs LF (String c "") = false). cbn.
      by rewrite bool_decide_eq_false_2.
    - change (occurs LF (String x (acc +:+ String c "")) = false).
      cbn [occurs] in *. apply orb_false_iff in Hacc as [-> Hacc].
      by rewrite IHacc. }
  induction s as [|c s IH]; intros acc l Hacc; cbn [splitLinesFrom].
  - by intros ->%list_elem_of_singleton.
  - destruct (decide (c = LF)) as [->|HnLF].
    + intros [->|Hl]%elem_of_cons; [done|]. by apply (IH "").
    + assert (Hstep : l ∈ splitLinesFrom (acc +:+ String c "") s ->
                      occurs LF l = false) by (apply IH; by apply Happ).
      destruct (decide (c = CR)) as [->|HnCR]; [|exact Hstep].
      destruct s as [|c' s']; [exact Hstep|].
      destruct (decide (c' = LF)) as [->|]; [|exact Hstep].
      intros [->|Hl]%elem_of_cons; [done|].
      apply (IH "" l eq_refl). cbn [splitLinesFrom].
      destruct (decide (LF = LF)); [|done]. by right.
Qed.

(** X3. Splitting loses nothing but the carriage returns of CR LF pairs:
    for a text without such a pair, joining the lines of the split with
    line feeds gives the text back. *)
Theorem splitLines_round_trip fileContent :
  noCRLF fileContent = true ->
  joinLines (splitLines fileContent) = fileContent.
Proof. intros H. unfold splitLines. by rewrite splitLinesFrom_join. Qed.

(** X4. The split of any text, the empty one too, has at least one line
    (the loop of the extraction runs at least once), and no line of it
    contains a line feed. *)
Theorem splitLines_lines fileContent :
  (1 <= length (splitLines fileContent))%nat
  /\ forall l, l ∈ splitLines fileContent -> occurs LF l = false.
Proof.
  split.
  - unfold splitLines. destruct (splitLinesFrom_cons fileContent "") as (l & r & ->).
    cbn. lia.
  - intros l. by apply splitLinesFrom_no_LF.
Qed.

Lemma lazyPathAndLine_Some s : forall acc g1 g2,
  lazyPathAndLine acc s = Some (g1, g2) ->
  exists mid, g1 = acc +:+ mid
    /\ s = mid +:+ String colon g2
    /\ digitsToEnd g2 = true.
Proof.
  induction s as [|c s IH]; intros acc g1 g2; cbn [lazyPathAndLine]; [done|].
  destruct (bool_decide (c = colon) && digitsToEnd s) eqn:Hhere.
  - intros [= <- <-]. apply andb_true_iff in Hhere as [Hc Hd].
    apply bool_decide_eq_true_1 in Hc. subst c.
    exists "". by rewrite append_nil_r.
  - destruct (startsWithLineTerminator (String c s)) eqn:Hlt; [done|].
    intros (mid & -> & -> & Hd)%IH.
    exists (String c mid). by rewrite append_assoc.
Qed.

Lemma matchArray_Some line groups pathMatch :
  matchArray line groups = Some pathMatch ->
  exists g1 g2, groups = Some (g1, g2) /\ pathMatch = [line; g1; g2].
Proof. destruct groups as [[g1 g2]|]; cbn; [intros [= <-]; eauto|done]. Qed.

Lemma default_path_expressions_groups_aux line pathMatch :
  posixPathRegex line = Some pathMatch
  \/ win32PathRegex line = Some pathMatch
  \/ unknownPathRegex line = Some pathMatch ->
  exists g1 g2,
    pathMatch = [line; g1; g2]
    /\ line = g1 +:+ String colon g2
    /\ digitsToEnd g2 = true
    /\ (posixPathRegex line = Some pathMatch ->
        exists c tl, g1 = String c tl /\ isSeparator c = true)
    /\ (win32PathRegex line = Some pathMatch ->
        exists d sep tl, g1 = String d (String colon (String sep tl))
          /\ isLetter d = true /\ isSeparator sep = true).
Proof.
  assert (Hposix : forall pm, posixPathRegex line = Some pm ->
    exists c tl g2, pm = [line; String c tl; g2]
      /\ line = String c tl +:+ String colon g2 /\ digitsToEnd g2 = true
      /\ isSeparator c = true).
  { intros pm. unfold posixPathRegex. destruct line as [|c rest]; [done|].
    destruct (isSeparator c) eqn:Hc; [|done].
    intros (g1 & g2 & (mid & -> & -> & Hd)%lazyPathAndLine_Some & ->)%matchArray_Some.
    exists c, mid, g2. done. }
  assert (Hwin : forall pm, win32PathRegex line = Some pm ->
    exists d sep tl g2, pm = [line; String d (String colon (String sep tl)); g2]
      /\ line = String d (String colon (String sep tl)) +:+ String colon g2
      /\ digitsToEnd g2 = true /\ isLetter d = true /\ isSeparator sep = true).
  { intros pm. unfold win32PathRegex.
    destruct line as [|d [|c1 [|c2 rest]]]; try done.
    destruct (isLetter d) eqn:Hd; [|done].
    destruct (bool_decide (c1 = colon)) eqn:Hc1; [|done].
    destruct (isSeparator c2) eqn:Hc2; [|done]. cbn [andb].
    apply bool_decide_eq_true_1 in Hc1. subst c1.
    intros (g1 & g2 & (mid & -> & -> & Hdig)%lazyPathAndLine_Some & ->)%matchArray_Some.
    exists d, c2, mid, g2. done. }
  intros [H|[H|H]].
  - destruct (Hposix _ H) as (c & tl & g2 & -> & Hline & Hd & Hc).
    exists (String c tl), g2. repeat split; try done; [eauto|].
    intros H'. destruct (Hwin _ H') as (d & sep & tl' & g2' & [= -> ->] & _ & _ & ? & ?).
    eauto 10.
  - destruct (Hwin _ H) as (d & sep & tl & g2 & -> & Hline & Hd & Hl & Hs).
    exists (String d (String colon (String sep tl))), g2.
    repeat split; try done; [|eauto 10].
    intros H'. destruct (Hposix _ H') as (c & tl' & g2' & [= -> ->] & _ & _ & ?).
    eauto.
  - revert H. unfold unknownPathRegex.
    intros (g1 & g2 & (mid & Hg1 & Hline & Hd)%lazyPathAndLine_Some & ->)%matchArray_Some.
    change ("" +:+ mid) with mid in Hg1. subst g1.
    exists mid, g2. repeat split; try done.
    + intros H'. destruct (Hposix _ H') as (c & tl' & g2' & [= -> ->] & _ & _ & ?).
      eauto.
    + intros H'. destruct (Hwin _ H') as (d & sep & tl' & g2' & [= -> ->] & _ & _ & ? & ?).
      eauto 10.
Qed.

(** X5. A match of one of the three default path expressions always has
    its two groups, and they take the line apart: the line is the first
    group, a colon and the second group, which is one or more decimal
    digits.  The first group starts with a separator for the POSIX
    default, and with a drive letter, a colon and a separator for the
    Windows default. *)
Theorem default_path_expressions_groups line pathMatch :
  posixPathRegex line = Some pathMatch
  \/ win32PathRegex line = Some pathMatch
  \/ unknownPathRegex line = Some pathMatch ->
  exists g1 g2,
    pathMatch = [line; g1; g2]
    /\ line = g1 +:+ String colon g2
    /\ digitsToEnd g2 = true
    /\ (posixPathRegex line = Some pathMatch ->
        exists c tl, g1 = String c tl /\ isSeparator c = true)
    /\ (win32PathRegex line = Some pathMatch ->
        exists d sep tl, g1 = String d (String colon (String sep tl))
          /\ isLetter d = true /\ isSeparator sep = true).
Proof. exact (default_path_expressions_groups_aux line pathMatch). Qed.

(** ** Highlighting *)

Lemma collectRanges_Some text k : forall z,
  0 <= z ->
  (forall j, z <= Z.of_nat j < z + Z.of_nat k -> is_Some (text j)) ->
  collectRanges text z k = Some ((fun d => z + Z.of_nat d) <$> seq 0 k).
Proof.
  induction k as [|k IH]; intros z Hz Hall; [reflexivity|].
  cbn [collectRanges]. destruct (Z.ltb_spec z 0) as [|_]; [lia|].
  destruct (Hall (Z.to_nat z) ltac:(lia)) as [t ->].
  rewrite (IH (z + 1)) by (try lia; intros j Hj; apply Hall; lia).
  cbn [fmap option_fmap option_map seq list_fmap]. f_equal. f_equal; [lia|].
  rewrite <- fmap_S_seq, <- list_fmap_compose.
  apply list_fmap_ext. intros _ d _. cbn. lia.
Qed.

Lemma collectRanges_None text k : forall z j,
  z <= Z.of_nat j < z + Z.of_nat k ->
  text j = None ->
  collectRanges text z k = None.
Proof.
  induction k as [|k IH]; intros z j Hj Hnone; [lia|].
  cbn [collectRanges]. destruct (Z.ltb_spec z 0) as [|Hz]; [done|].
  destruct (decide (Z.of_nat j = z)) as [<-|Hne].
  - by rewrite Nat2Z.id, Hnone.
  - destruct (text (Z.to_nat z)); [|done].
    by rewrite (IH (z + 1) j) by (try lia; done).
Qed.

Lemma highlightLines_all_or_nothing_aux h message e z lineCount :
  0 <= z ->
  ((forall j, z <= Z.of_nat j < z + lineCount -> is_Some (lineAt h e j)) ->
   highlightLines h message e (Some (Num z)) lineCount
   = [SetDecorations e ((fun d => z + Z.of_nat d) <$> seq 0 (Z.to_nat lineCount))])
  /\ (forall j, z <= Z.of_nat j < z + lineCount -> lineAt h e j = None ->
      highlightLines h message e (Some (Num z)) lineCount
      = [ShowErrorMessage ("高亮行失败: " +:+ message)]).
Proof.
  intros Hz. unfold highlightLines. split.
  - intros Hall. rewrite collectRanges_Some; [done|done|].
    intros j Hj. apply Hall. lia.
  - intros j Hj Hnone. rewrite (collectRanges_None _ _ _ j); [done| |done]. lia.
Qed.

(** X6. [highlightLines] is all or nothing.  From a start line [z >= 0]:
    when the document has every line of the block, the decorations of the
    editor are replaced by exactly the lines [z .. z + lineCount - 1];
    when it lacks one of them, no decoration is set (those in place stay)
    and the error is shown. *)
Theorem highlightLines_all_or_nothing h message e z lineCount :
  0 <= z ->
  ((forall j, z <= Z.of_nat j < z + lineCount -> is_Some (lineAt h e j)) ->
   highlightLines h message e (Some (Num z)) lineCount
   = [SetDecorations e ((fun d => z + Z.of_nat d) <$> seq 0 (Z.to_nat lineCount))])
  /\ (forall j, z <= Z.of_nat j < z + lineCount -> lineAt h e j = None ->
      highlightLines h message e (Some (Num z)) lineCount
      = [ShowErrorMessage ("高亮行失败: " +:+ message)]).
Proof. exact (highlightLines_all_or_nothing_aux h message e z lineCount). Qed.

(** X7. Without a usable start line [highlightLines] does not fail: with
    [undefined] or [NaN] the loop does not run and the decorations of the
    editor are replaced by none, that is, cleared; with a negative start
    line and a positive count the error is shown and nothing is set. *)
Theorem highlightLines_without_start h message e lineCount :
  highlightLines h message e None lineCount = [SetDecorations e []]
  /\ highlightLines h message e (Some NaN) lineCount = [SetDecorations e []]
  /\ (forall z, z < 0 -> 0 < lineCount ->
        highlightLines h message e (Some (Num z)) lineCount
        = [ShowErrorMessage ("高亮行失败: " +:+ message)]).
Proof.
  repeat split. intros z Hz Hc. unfold highlightLines.
  destruct (Z.to_nat lineCount) as [|k] eqn:E; [lia|].
  cbn [collectRanges]. by destruct (Z.ltb_spec z 0) as [|]; [|lia].
Qed.

(** ** The location index *)

Section Index.

Variable parseInt : string -> option Z -> number.
Variables (pathRe skipRe : RegExp).

Lemma lookupLocation_setLocation_eq m p n d :
  lookupLocation (setLocation m p n d) p n = Some d.
Proof.
  unfold lookupLocation, setLocation.
  destruct (m !! p); rewrite lookup_insert_eq; simpl; apply lookup_insert_eq.
Qed.

Lemma lookupLocation_setLocation_ne m p n d p' n' :
  (p, n) <> (p', n') ->
  lookupLocation (setLocation m p n d) p' n' = lookupLocation m p' n'.
Proof.
  intros Hne. unfold lookupLocation, setLocation.
  destruct (decide (p = p')) as [<-|Hp].
  - assert (n <> n') by congruence.
    destruct (m !! p) eqn:E; rewrite lookup_insert_eq; simpl;
      rewrite lookup_insert_ne by done; [done | apply lookup_empty].
  - destruct (m !! p); rewrite lookup_insert_ne by done; done.
Qed.

(** One iteration, read through [tokenOf]. *)
Lemma extractStep_token lines m last i :
  extractStep parseInt pathRe skipRe lines (m, last) i =
  match tokenOf parseInt pathRe skipRe (nth i lines "") with
  | Some (p, n) =>
      (setLocation m p n
         {| originalFileIndex := Z.of_nat i;
            highlightLineCount := Z.of_nat last - Z.of_nat i |}, i)
  | None =>
      (m, if bool_decide (is_Some (skipRe (nth i lines ""))) then last else i)
  end.
Proof.
  unfold extractStep, tokenOf.
  destruct (bool_decide (is_Some (skipRe (nth i lines "")))); [reflexivity|].
  destruct (pathRe (nth i lines "")) as [pm|]; [|reflexivity].
  destruct (3 <=? length pm)%nat; reflexivity.
Qed.

Lemma firstKept_ge ls k : (k <= firstKept skipRe ls k)%nat.
Proof.
  revert k. induction ls as [|l ls IH]; intros k; simpl; [lia|].
  destruct (bool_decide _); [|lia]. specialize (IH (S k)). lia.
Qed.

Lemma firstKept_le ls k : (firstKept skipRe ls k <= k + length ls)%nat.
Proof.
  revert k. induction ls as [|l ls IH]; intros k; simpl; [lia|].
  destruct (bool_decide _); [|lia]. specialize (IH (S k)). lia.
Qed.

Lemma boundary_ge lines k : (k <= boundary skipRe lines k)%nat.
Proof. apply firstKept_ge. Qed.

Lemma boundary_step lines k l :
  lines !! k = Some l ->
  boundary skipRe lines k =
  if bool_decide (is_Some (skipRe l)) then boundary skipRe lines (S k) else k.
Proof.
  intros Hl. unfold boundary. rewrite (drop_S _ _ _ Hl). reflexivity.
Qed.

(** The state of the loop once the lines [k .. k+d-1] have been visited,
    when these are the last lines of the file: [lastMatchedLineIndex] is
    the boundary at [k], and a key reads as the entry of its first
    occurrence from [k] on, or as before the loop when it has none. *)
Lemma extract_from lines m0 p n d : forall k,
  (k + d = length lines)%nat ->
  let st := foldl (extractStep parseInt pathRe skipRe lines)
              (m0, length lines) (rev (seq k d)) in
  snd st = boundary skipRe lines k
  /\ lookupLocation (fst st) p n =
     match list_find (fun l => tokenOf parseInt pathRe skipRe l = Some (p, n))
             (drop k lines) with
     | Some (i, _) => Some (entryAt skipRe lines (k + i))
     | None => lookupLocation m0 p n
     end.
Proof.
  induction d as [|d IH]; intros k Hk; cbv zeta; cbn [seq rev].
  - assert (k = length lines) as -> by lia.
    unfold boundary. rewrite drop_all. simpl. done.
  - rewrite foldl_app. cbn [foldl].
    destruct (IH (S k) ltac:(lia)) as [Hlast Hmap].
    destruct (foldl _ _ (rev (seq (S k) d))) as [m last]. cbn [fst snd] in *.
    destruct (lookup_lt_is_Some_2 lines k ltac:(lia)) as [l Hl].
    rewrite (drop_S _ _ _ Hl), extractStep_token.
    rewrite nth_lookup, Hl. cbn [from_option id].
    rewrite (boundary_step _ _ _ Hl).
    cbn [list_find].
    destruct (tokenOf parseInt pathRe skipRe l) as [[p' n']|] eqn:Htok;
      rewrite ?Htok; cbn [fst snd].
    + assert (bool_decide (is_Some (skipRe l)) = false) as ->.
      { unfold tokenOf in Htok. destruct (bool_decide _); [discriminate|done]. }
      split; [done|].
      destruct (decide (Some (p', n') = Some (p, n))) as [[= -> ->]|Hne].
      * rewrite lookupLocation_setLocation_eq. unfold entryAt.
        rewrite Nat.add_0_r, Hlast. done.
      * rewrite lookupLocation_setLocation_ne by congruence.
        rewrite Hmap. destruct (list_find _ _) as [[i x]|]; simpl; [|done].
        do 2 f_equal. lia.
    + split; [destruct (bool_decide _); done|].
      destruct (decide (None = Some (p, n))) as [|_]; [discriminate|].
      rewrite Hmap. destruct (list_find _ _) as [[i x]|]; simpl; [|done].
      do 2 f_equal. lia.
Qed.

(** What the index holds for a key after the loop. *)
Lemma extractLines_lookup lines m0 p n :
  lookupLocation (extractLines parseInt pathRe skipRe lines m0) p n =
  match list_find (fun l => tokenOf parseInt pathRe skipRe l = Some (p, n)) lines with
  | Some (i, _) => Some (entryAt skipRe lines i)
  | None => lookupLocation m0 p n
  end.
Proof.
  unfold extractLines, descending.
  destruct (extract_from lines m0 p n (length lines) 0%nat eq_refl) as [_ H].
  rewrite H, drop_0. reflexivity.
Qed.

(** The top-level keys after a run of the loop over the indices [idx]. *)
Lemma extractStep_keys lines st i p :
  is_Some (fst (extractStep parseInt pathRe skipRe lines st i) !! p) <->
  is_Some (fst st !! p)
  \/ exists n, tokenOf parseInt pathRe skipRe (nth i lines "") = Some (p, n).
Proof.
  destruct st as [m last]. rewrite extractStep_token.
  destruct (tokenOf parseInt pathRe skipRe (nth i lines "")) as [[p' n']|];
    cbn [fst].
  - unfold setLocation.
    destruct (decide (p' = p)) as [->|Hne].
    + split; [eauto|]. intros _.
      destruct (m !! p); rewrite lookup_insert_eq; eauto.
    + assert (forall lm : gmap number FileLocationData,
                 <[p':=lm]> m !! p = m !! p) as Hins
        by (intros; apply lookup_insert_ne, Hne).
      destruct (m !! p'); rewrite Hins;
        (split; [tauto | intros [?|[n [= ? ?]]]; [done|contradiction]]).
  - split; [tauto | intros [?|[n ?]]; [done|discriminate]].
Qed.

Lemma extract_keys lines idx p : forall st,
  is_Some (fst (foldl (extractStep parseInt pathRe skipRe lines) st idx) !! p) <->
  is_Some (fst st !! p)
  \/ exists i n, i ∈ idx
       /\ tokenOf parseInt pathRe skipRe (nth i lines "") = Some (p, n).
Proof.
  induction idx as [|i idx IH]; intros st; cbn [foldl].
  - split; [tauto|]. intros [?|(i & n & Hi & _)]; [done|]. inversion Hi.
  - rewrite IH, extractStep_keys. split.
    + intros [[?|[n Hn]]|(j & n & Hj & Hn)]; [tauto| |].
      * right. exists i, n. split; [left|done].
      * right. exists j, n. split; [by right|done].
    + intros [?|(j & n & Hj & Hn)]; [tauto|].
      apply elem_of_cons in Hj as [->|Hj]; [left; right; eauto|].
      right. eauto.
Qed.

Lemma elem_of_descending (i n : nat) : i ∈ descending n <-> (i < n)%nat.
Proof.
  unfold descending. rewrite list_elem_of_In, <- in_rev, in_seq. lia.
Qed.

Lemma extractLines_keys lines p :
  is_Some (extractLines parseInt pathRe skipRe lines ∅ !! p) <->
  exists i l n, lines !! i = Some l
    /\ tokenOf parseInt pathRe skipRe l = Some (p, n).
Proof.
  unfold extractLines. rewrite extract_keys. cbn [fst].
  rewrite lookup_empty. split.
  - intros [[? [=]]|(i & n & Hi & Hn)].
    apply elem_of_descending in Hi.
    destruct (lookup_lt_is_Some_2 lines i Hi) as [l Hl].
    rewrite nth_lookup, Hl in Hn. eauto.
  - intros (i & l & n & Hl & Hn). right. exists i, n. split.
    + apply elem_of_descending. by apply lookup_lt_Some in Hl.
    + by rewrite nth_lookup, Hl.
Qed.

(** C1. When a key is filed on several lines of the reference file, the
    index keeps the entry of the topmost one: if line [i] of the text files
    the key [(p, n)] and no line above it does, then after extraction the
    index holds for [(p, n)] the entry written at line [i], whatever lines
    below file the same key and whatever the index held before.  (A line is
    an occurrence when the loop files it: it is not skipped and the path
    expression has its two groups on it.) *)
Theorem extraction_keeps_topmost h f m0 text i l p n :
  existsSync h f = true ->
  readFile h f = inl text ->
  splitLines text !! i = Some l ->
  tokenOf parseInt pathRe skipRe l = Some (p, n) ->
  (forall j l', (j < i)%nat -> splitLines text !! j = Some l' ->
                tokenOf parseInt pathRe skipRe l' <> Some (p, n)) ->
  lookupLocation (fst (extractFileLocations parseInt h f m0 pathRe skipRe)) p n
  = Some (entryAt skipRe (splitLines text) i)
  /\ originalFileIndex (entryAt skipRe (splitLines text) i) = Z.of_nat i.
Proof.
  intros Hex Hrd Hl Htok Hfirst. split; [|reflexivity].
  unfold extractFileLocations. rewrite Hex, Hrd. cbn [negb fst].
  rewrite extractLines_lookup.
  assert (list_find (fun l => tokenOf parseInt pathRe skipRe l = Some (p, n))
            (splitLines text) = Some (i, l)) as ->; [|reflexivity].
  apply list_find_Some. repeat split; try done.
  intros j y Hy Hj. by apply (Hfirst j y).
Qed.

Lemma take_descending (n d : nat) :
  take d (descending n) = rev (seq (n - d) (min d n)).
Proof.
  unfold descending. destruct (decide (d <= n)%nat) as [Hd|Hd].
  - replace (min d n) with d by lia.
    replace n with ((n - d) + d)%nat at 1 by lia.
    rewrite seq_app, rev_app_distr. cbn [plus].
    apply take_app_length'. by rewrite length_rev, length_seq.
  - replace (min d n) with n by lia. replace (n - d)%nat with O by lia.
    apply take_ge. rewrite length_rev, length_seq. lia.
Qed.

(** C9. Every entry that extraction stores has a highlight count of at
    least one.  An entry found in the index at any moment of the loop,
    after any number of its iterations over any lines, or found in the
    index that [extractFileLocations] returns, has
    [highlightLineCount >= 1], unless it is an entry that was there,
    unchanged, before the call. *)
Theorem stored_highlightLineCount_positive h f m0 lines d p n e :
  lookupLocation (fst (extractAfter parseInt pathRe skipRe lines m0 d)) p n = Some e
  \/ lookupLocation (fst (extractFileLocations parseInt h f m0 pathRe skipRe)) p n
     = Some e ->
  1 <= highlightLineCount e \/ lookupLocation m0 p n = Some e.
Proof.
  assert (Hloop : forall ls k c,
    (k + c = length ls)%nat ->
    lookupLocation
      (fst (foldl (extractStep parseInt pathRe skipRe ls) (m0, length ls)
              (rev (seq k c)))) p n = Some e ->
    1 <= highlightLineCount e \/ lookupLocation m0 p n = Some e).
  { intros ls k c Hk.
    destruct (extract_from ls m0 p n c k Hk) as [_ ->].
    destruct (list_find _ _) as [[i l]|]; [|tauto].
    intros [= <-]. left. unfold entryAt. cbn [highlightLineCount].
    pose proof (boundary_ge ls (S (k + i))). lia. }
  intros [Hmid|Hend].
  - unfold extractAfter in Hmid. rewrite take_descending in Hmid.
    apply (Hloop lines (length lines - d)%nat (min d (length lines)));
      [lia | exact Hmid].
  - revert Hend. unfold extractFileLocations.
    destruct (existsSync h f); cbn [negb fst]; [|tauto].
    destruct (readFile h f) as [text|msg]; cbn [fst]; [|tauto].
    unfold extractLines, descending. apply Hloop. reflexivity.
Qed.

(** C6. When the reference file does not exist or cannot be read,
    extraction tells the user so and returns the index it was given,
    unchanged. *)
Theorem extraction_failure_keeps_index h f m0 :
  existsSync h f = false \/ (exists message, readFile h f = inr message) ->
  fst (extractFileLocations parseInt h f m0 pathRe skipRe) = m0
  /\ exists message,
       last (snd (extractFileLocations parseInt h f m0 pathRe skipRe))
       = Some (ShowErrorMessage message).
Proof.
  unfold extractFileLocations. intros [Hex|[message Hrd]].
  - rewrite Hex. cbn. eauto.
  - destruct (existsSync h f); cbn [negb]; [|cbn; eauto].
    rewrite Hrd. cbn. eauto.
Qed.

(** C3, as the code has it.  The top-level keys of an index built from
    the empty index are exactly the paths captured on the lines of the
    reference file, stored as written there, without normalisation; and
    when an editor that is neither master nor assistant becomes the
    assistant, the handler gets past the lookup of its normalised path
    exactly when some line files a key whose captured path is that
    normalised path, character for character. *)
Theorem index_keys_are_captured_paths lines h ev g tr p' :
  fileLocationsMap (table g) = extractLines parseInt pathRe skipRe lines ∅ ->
  editor (masterfile g) <> Some ev ->
  editor (assistantfile g) <> Some ev ->
  getActiveEditorFilePath (osName (config g)) (fsPath h ev) = Some p' ->
  (forall p, is_Some (fileLocationsMap (table g) !! p) <->
             exists i l n, lines !! i = Some l
               /\ tokenOf parseInt pathRe skipRe l = Some (p, n))
  /\ (fst (roleResolution h ev (g, tr)) = Normal tt <->
      exists i l n, lines !! i = Some l
        /\ tokenOf parseInt pathRe skipRe l = Some (p', n)).
Proof.
  intros Hmap Hm Ha Hp. split.
  - intros p. rewrite Hmap. apply extractLines_keys.
  - rewrite <- extractLines_keys, <- Hmap.
    unfold roleResolution, mbind, M_bind, getGlobals, update, returnVoid.
    cbn [fst snd].
    rewrite !bool_decide_eq_false_2 by done. cbn [negb andb fst snd].
    rewrite Hp.
    assert (falsy (Some p') = false) as ->.
    { unfold getActiveEditorFilePath in Hp. simpl.
      apply bool_decide_eq_false_2. intros ->.
      destruct (decide _) as [|Hne]; [discriminate|].
      destruct (decide _); [destruct (windowsPathRegex _) as [[]|]|];
        injection Hp as Hp; try discriminate;
        by apply replaceBackslashes_empty in Hp. }
    cbn [default from_option id].
    destruct (fileLocationsMap (table g) !! p') as [sub|]; cbn.
    + split; eauto.
    + split; [discriminate|]. intros [? [=]].
Qed.

Lemma boundary_le lines k :
  (k <= length lines)%nat -> (boundary skipRe lines k <= length lines)%nat.
Proof.
  intros Hk. unfold boundary.
  pose proof (firstKept_le (drop k lines) k) as H.
  rewrite length_drop in H. lia.
Qed.

(** The lines from [k] up to the boundary at [k] are skipped lines, and
    the line at the boundary, when there is one, is not. *)
Lemma firstKept_run ls : forall k,
  (forall j, (k <= j < firstKept skipRe ls k)%nat ->
     exists l, ls !! (j - k)%nat = Some l /\ is_Some (skipRe l))
  /\ (forall l, ls !! (firstKept skipRe ls k - k)%nat = Some l -> skipRe l = None).
Proof.
  induction ls as [|l0 ls IH]; intros k; cbn [firstKept].
  - split; [intros j Hj; lia|]. intros l. by rewrite lookup_nil.
  - destruct (bool_decide (is_Some (skipRe l0))) eqn:Hs.
    + apply bool_decide_eq_true_1 in Hs.
      destruct (IH (S k)) as [Hrun Hend]. split.
      * intros j Hj. destruct (decide (j = k)) as [->|Hne].
        -- exists l0. by rewrite Nat.sub_diag.
        -- destruct (Hrun j ltac:(lia)) as (l & Hl & Hsk).
           exists l. split; [|done].
           replace (j - k)%nat with (S (j - S k)) by lia. done.
      * intros l Hl. apply Hend.
        pose proof (firstKept_ge ls (S k)).
        replace (firstKept skipRe ls (S k) - k)%nat
          with (S (firstKept skipRe ls (S k) - S k)) in Hl by lia.
        done.
    + apply bool_decide_eq_false_1 in Hs. split; [intros j Hj; lia|].
      intros l. rewrite Nat.sub_diag. intros [= <-].
      destruct (skipRe l0) eqn:E; [|done]. destruct Hs. eauto.
Qed.

Lemma boundary_run lines k :
  (forall j, (k <= j < boundary skipRe lines k)%nat ->
     exists l, lines !! j = Some l /\ is_Some (skipRe l))
  /\ (forall l, lines !! boundary skipRe lines k = Some l -> skipRe l = None).
Proof.
  destruct (firstKept_run (drop k lines) k) as [Hrun Hend]. split.
  - intros j Hj. destruct (Hrun j Hj) as (l & Hl & Hs).
    rewrite lookup_drop in Hl. replace (k + (j - k))%nat with j in Hl by lia. eauto.
  - intros l Hl. apply Hend. rewrite lookup_drop.
    pose proof (boundary_ge lines k). unfold boundary in *.
    replace (k + (firstKept skipRe (drop k lines) k - k))%nat
      with (firstKept skipRe (drop k lines) k) by lia. done.
Qed.

Lemma index_entry_is_first_occurrence_aux lines m0 p n e :
  lookupLocation m0 p n = None ->
  lookupLocation (extractLines parseInt pathRe skipRe lines m0) p n = Some e ->
  exists i l,
    originalFileIndex e = Z.of_nat i
    /\ lines !! i = Some l
    /\ tokenOf parseInt pathRe skipRe l = Some (p, n)
    /\ (forall j l', (j < i)%nat -> lines !! j = Some l' ->
          tokenOf parseInt pathRe skipRe l' <> Some (p, n))
    /\ 1 <= highlightLineCount e
    /\ originalFileIndex e + highlightLineCount e <= Z.of_nat (length lines).
Proof.
  intros Hnone. rewrite extractLines_lookup.
  destruct (list_find _ _) as [[i l]|] eqn:Hfind; [|congruence].
  intros [= <-]. apply list_find_Some in Hfind as (Hl & Htok & Hfirst).
  exists i, l. unfold entryAt. cbn [originalFileIndex highlightLineCount].
  pose proof (boundary_ge lines (S i)).
  pose proof (lookup_lt_Some _ _ _ Hl).
  pose proof (boundary_le lines (S i) ltac:(lia)).
  repeat split; try done; try lia.
  intros j l' Hj Hl'. by apply (Hfirst j l').
Qed.

(** X8. An entry that the loop has put under a key that had none points
    into the file: its offset is the index of a line that files this key,
    the first such line, and the block it describes, of at least one line,
    ends within the lines of the file. *)
Theorem index_entry_is_first_occurrence lines m0 p n e :
  lookupLocation m0 p n = None ->
  lookupLocation (extractLines parseInt pathRe skipRe lines m0) p n = Some e ->
  exists i l,
    originalFileIndex e = Z.of_nat i
    /\ lines !! i = Some l
    /\ tokenOf parseInt pathRe skipRe l = Some (p, n)
    /\ (forall j l', (j < i)%nat -> lines !! j = Some l' ->
          tokenOf parseInt pathRe skipRe l' <> Some (p, n))
    /\ 1 <= highlightLineCount e
    /\ originalFileIndex e + highlightLineCount e <= Z.of_nat (length lines).
Proof. exact (index_entry_is_first_occurrence_aux lines m0 p n e). Qed.

(** X9. The block of such an entry is its own line followed by the run of
    skipped lines right below it: every line strictly inside the block is
    a skipped line, and the line just after the block, when the file has
    one, is not. *)
Theorem index_entry_spans_skipped_run lines m0 p n e :
  lookupLocation m0 p n = None ->
  lookupLocation (extractLines parseInt pathRe skipRe lines m0) p n = Some e ->
  (forall j, originalFileIndex e < Z.of_nat j < originalFileIndex e + highlightLineCount e ->
     exists l, lines !! j = Some l /\ is_Some (skipRe l))
  /\ (forall l, lines !! Z.to_nat (originalFileIndex e + highlightLineCount e) = Some l ->
        skipRe l = None).
Proof.
  intros Hnone. rewrite extractLines_lookup.
  destruct (list_find _ _) as [[i l]|] eqn:Hfind; [|congruence].
  intros [= <-]. unfold entryAt. cbn [originalFileIndex highlightLineCount].
  pose proof (boundary_ge lines (S i)).
  destruct (boundary_run lines (S i)) as [Hrun Hend]. split.
  - intros j Hj. apply Hrun. lia.
  - intros l0. replace (Z.to_nat _) with (boundary skipRe lines (S i)) by lia.
    apply Hend.
Qed.

(** X10. The loop touches the keys that some line files and no other: a
    key that no line files reads after the loop as it did before, and a
    key that some line files has an entry after the loop. *)
Theorem extraction_touches_filed_keys_only lines m0 p n :
  ((forall i l, lines !! i = Some l ->
      tokenOf parseInt pathRe skipRe l <> Some (p, n)) ->
   lookupLocation (extractLines parseInt pathRe skipRe lines m0) p n
   = lookupLocation m0 p n)
  /\ ((exists i l, lines !! i = Some l
         /\ tokenOf parseInt pathRe skipRe l = Some (p, n)) ->
      is_Some (lookupLocation (extractLines parseInt pathRe skipRe lines m0) p n)).
Proof.
  rewrite extractLines_lookup. split.
  - intros Hno. destruct (list_find _ _) as [[i l]|] eqn:Hfind; [|done].
    apply list_find_Some in Hfind as (Hl & Htok & _). by destruct (Hno i l).
  - intros (i & l & Hl & Htok).
    destruct (list_find _ _) as [[i' l']|] eqn:Hfind; [eauto|].
    eapply list_find_None, Forall_lookup in Hfind; [|exact Hl]. done.
Qed.

(** X11. With the default skip expression and the POSIX or the Windows
    default path expression, a skipped line is never a path line: the two
    expressions do not compete, and the key filed for a line is the one
    read off the match of the path expression alone. *)
Theorem default_skip_never_hides_a_path_line line :
  (is_Some (skipLeadingSpace line) ->
   posixPathRegex line = None /\ win32PathRegex line = None)
  /\ tokenOf parseInt posixPathRegex skipLeadingSpace line
     = (fun pm => (group pm 1, parseInt (group pm 2) (Some 10))) <$> posixPathRegex line
  /\ tokenOf parseInt win32PathRegex skipLeadingSpace line
     = (fun pm => (group pm 1, parseInt (group pm 2) (Some 10))) <$> win32PathRegex line.
Proof.
  assert (Hskip : is_Some (skipLeadingSpace line) ->
                  posixPathRegex line = None /\ win32PathRegex line = None).
  { unfold skipLeadingSpace, posixPathRegex, win32PathRegex.
    destruct line as [|c rest]; [by intros [? [=]]|].
    destruct (decide (c = ascii_of_nat 32)) as [->|]; [|by intros [? [=]]].
    intros _. split; [reflexivity|]. by destruct rest as [|c1 [|c2 rest]]. }
  split; [exact Hskip|].
  unfold tokenOf. destruct (bool_decide (is_Some (skipLeadingSpace line))) eqn:Hs.
  - apply bool_decide_eq_true_1, Hskip in Hs as [-> ->]. done.
  - split.
    + destruct (posixPathRegex line) as [pm|] eqn:H; [|done].
      destruct (default_path_expressions_groups_aux line pm (or_introl H))
        as (g1 & g2 & -> & _). done.
    + destruct (win32PathRegex line) as [pm|] eqn:H; [|done].
      destruct (default_path_expressions_groups_aux line pm (or_intror (or_introl H)))
        as (g1 & g2 & -> & _). done.
Qed.

(** X12. Highlighting an entry of the index never runs past the reference
    file: in an editor whose document has the lines the index was built
    from, [highlightLines] on the offset and the count of an entry that the
    loop has put there sets exactly the lines of its block and shows no
    error. *)
Theorem index_entry_highlight_in_range lines m0 p n e h message m :
  lookupLocation m0 p n = None ->
  lookupLocation (extractLines parseInt pathRe skipRe lines m0) p n = Some e ->
  (forall j, lineAt h m j = lines !! j) ->
  highlightLines h message m (Some (Num (originalFileIndex e))) (highlightLineCount e)
  = [SetDecorations m
       ((fun d => originalFileIndex e + Z.of_nat d)
          <$> seq 0 (Z.to_nat (highlightLineCount e)))].
Proof.
  intros Hnone Hlook Hdoc.
  destruct (index_entry_is_first_occurrence_aux _ _ _ _ _ Hnone Hlook)
    as (i & l & Hi & _ & _ & _ & Hpos & Hend).
  apply highlightLines_all_or_nothing_aux; [lia|].
  intros j Hj. rewrite Hdoc. apply lookup_lt_is_Some_2. lia.
Qed.

End Index.

(** ** The selection-change handler and the commands *)

Section Handler.

Variable parseInt : string -> option Z -> number.
Variable parseFloat : string -> number.

(** The upward scan, read through [candidate]. *)
Lemma scanUp_S text pathRe skipRe i :
  scanUp text pathRe skipRe (S i) =
  match text i with
  | None => ScanThrow
  | Some t =>
      match candidate pathRe skipRe t with
      | Some pathMatch => ScanFound pathMatch
      | None => scanUp text pathRe skipRe i
      end
  end.
Proof.
  unfold candidate. cbn [scanUp]. destruct (text i) as [t|]; [|done].
  destruct (bool_decide _); [done|].
  destruct (pathRe t) as [pm|]; [|done]. by destruct (3 <=? length pm)%nat.
Qed.

(** The scan stops at the first candidate line at or above its start. *)
Lemma scanUp_first text pathRe skipRe i t pathMatch : forall n,
  (i < n)%nat ->
  text i = Some t ->
  candidate pathRe skipRe t = Some pathMatch ->
  (forall j, (i < j < n)%nat ->
     exists t', text j = Some t' /\ candidate pathRe skipRe t' = None) ->
  scanUp text pathRe skipRe n = ScanFound pathMatch.
Proof.
  induction n as [|n IH]; intros Hi Ht Hc Habove; [lia|].
  rewrite scanUp_S.
  destruct (decide (i = n)) as [->|Hne].
  - by rewrite Ht, Hc.
  - destruct (Habove n ltac:(lia)) as (t' & -> & ->).
    apply IH; [lia|done|done|]. intros j Hj. apply Habove. lia.
Qed.

#[local] Arguments getActiveEditorFilePath : simpl never.
#[local] Arguments scanUp : simpl never.
#[local] Arguments negativeLine : simpl never.
#[local] Arguments roleResolution : simpl never.

Ltac run :=
  unfold document_update, mbind, M_bind, mret, M_ret, getGlobals, update, call,
    calls, returnVoid, throwError; cbn.

(** No piece of the handler body writes to the configuration. *)
Lemma roleResolution_config h ev w :
  config (fst (snd (roleResolution h ev w))) = config (fst w).
Proof.
  unfold roleResolution. run.
  repeat (case_match; cbn in *; simplify_eq; try reflexivity).
Qed.

Lemma handlerBody_config h ev w :
  config (fst (snd (handlerBody parseInt parseFloat h ev w))) = config (fst w).
Proof.
  unfold handlerBody, dispatch, roleResolution, clearHighlight, assistantMoved,
    masterMoved, commit.
  run. repeat (case_match; cbn in *; simplify_eq; try reflexivity).
Qed.

Lemma resumeBody_no_await h pm oe w pm' :
  fst (resumeBody parseInt parseFloat h pm oe w) <> Normal (Await pm').
Proof.
  unfold resumeBody, commit.
  run. repeat (case_match; cbn in *; simplify_eq; try discriminate).
Qed.

(** Whatever way the body ends, [finally] has run when the handler is
    finished. *)
Lemma settle_Finished r w' :
  settle r = Finished w' -> intercept (config (fst w')) = false.
Proof.
  destruct r as [[[|pm]| |] w]; cbn; intros [= <-]; reflexivity.
Qed.

Lemma settle_Awaiting r pm w' :
  settle r = Awaiting pm w' -> r = (Normal (Await pm), w').
Proof.
  destruct r as [[[|pm']| |] w]; cbn; intros [= <- <-]; reflexivity.
Qed.

(** C4. While the latch is held an invocation of the handler does
    nothing at all: it leaves the world as it is, makes no call and keeps
    nothing for later.  An invocation that starts with the latch free and
    finishes, by falling through, by an early [return] or by a thrown
    error, leaves the latch free.  An invocation that is suspended in
    [openFileAndJumpToLine] holds the latch, so that every event arriving
    meanwhile is dropped, and its resumption always finishes and frees
    the latch. *)
Theorem latch_drops_and_is_released h ev w :
  (intercept (config (fst w)) = true ->
   selectionChange parseInt parseFloat h ev w = Finished w)
  /\ (intercept (config (fst w)) = false ->
      forall w', selectionChange parseInt parseFloat h ev w = Finished w' ->
                 intercept (config (fst w')) = false)
  /\ (forall pathMatch w',
        selectionChange parseInt parseFloat h ev w = Awaiting pathMatch w' ->
        intercept (config (fst w')) = true
        /\ (forall h' ev', selectionChange parseInt parseFloat h' ev' w' = Finished w')
        /\ (forall h' onceeditor, exists w'',
              selectionChangeResume parseInt parseFloat h' pathMatch onceeditor w'
              = Finished w''
              /\ intercept (config (fst w'')) = false)).
Proof.
  assert (Hdrop : forall h0 ev0 w0, intercept (config (fst w0)) = true ->
            selectionChange parseInt parseFloat h0 ev0 w0 = Finished w0).
  { intros h0 ev0 w0 H. unfold selectionChange. rewrite H.
    by rewrite !orb_true_r. }
  split; [apply Hdrop|]. split.
  - intros Hfree w'. unfold selectionChange.
    destruct (_ || _); [by intros [= <-]|]. apply settle_Finished.
  - intros pm w'. unfold selectionChange.
    destruct (_ || _); [discriminate|].
    intros Hs%settle_Awaiting.
    assert (Hheld : intercept (config (fst w')) = true).
    { pose proof (handlerBody_config h ev
        (onConfig (set_intercept true) (fst w), snd w)) as Hc.
      rewrite Hs in Hc. cbn in Hc. by rewrite Hc. }
    split; [done|]. split; [intros; by apply Hdrop|].
    intros h' oe. unfold selectionChangeResume.
    pose proof (resumeBody_no_await h' pm oe w') as Hno.
    destruct (resumeBody parseInt parseFloat h' pm oe w') as [[[|pm']| |] w''];
      cbn; eauto.
    by destruct (Hno pm').
Qed.

(** Past the guard and the role resolution, the handler is the dispatch. *)
Lemma selectionChange_dispatch h ev g tr g1 :
  isFeatureEnabled (config g) = false ->
  scheme h ev = "file" ->
  intercept (config g) = false ->
  error (config g) = false ->
  roleResolution h ev (onConfig (set_intercept true) g, tr) = (Normal tt, (g1, tr)) ->
  selectionChange parseInt parseFloat h ev (g, tr)
  = settle (dispatch parseInt parseFloat h (g1, tr))
  /\ isFeatureEnabled1 (config g1) = isFeatureEnabled1 (config g)
  /\ pathRegex (config g1) = pathRegex (config g)
  /\ skip (config g1) = skip (config g).
Proof.
  intros Hen Hsch Hlatch Herr Hrole. split.
  - unfold selectionChange. cbn [fst snd].
    rewrite Hen, Hlatch, Herr, Hsch. cbn [orb negb bool_decide].
    rewrite bool_decide_eq_true_2 by done. cbn [orb negb].
    unfold handlerBody. unfold mbind at 1, M_bind at 1. by rewrite Hrole.
  - pose proof (roleResolution_config h ev
                  (onConfig (set_intercept true) g, tr)) as Hc.
    rewrite Hrole in Hc. cbn in Hc. by rewrite Hc.
Qed.

(** C5, as the code has it.  The handler being past its guard and its
    role resolution with master [m] and assistant [a]: when the
    assistant's line has changed and the active sub-mapping has no entry
    for that line plus one, the cycle ends with no call to the host but
    the clearing of the highlights (no reveal, no highlight); the master's
    previous line is not advanced, the assistant's previous line and line
    are already set to the current line, and the latch is free. *)
Theorem assistant_lookup_miss h ev g tr g1 m a :
  isFeatureEnabled (config g) = false ->
  scheme h ev = "file" ->
  intercept (config g) = false ->
  error (config g) = false ->
  roleResolution h ev (onConfig (set_intercept true) g, tr) = (Normal tt, (g1, tr)) ->
  editor (masterfile g1) = Some m ->
  editor (assistantfile g1) = Some a ->
  oldlines (assistantfile g1) <> Some (activeLine h a) ->
  currentActiveFileLocationMap (table g1) !! Num (Z.of_nat (activeLine h a) + 1) = None ->
  exists g',
    selectionChange parseInt parseFloat h ev (g, tr)
    = Finished (g', (tr ++ clears g1 m a)%list)
    /\ oldlines (masterfile g') = oldlines (masterfile g1)
    /\ oldlines (assistantfile g') = Some (activeLine h a)
    /\ line (assistantfile g') = Some (Num (Z.of_nat (activeLine h a)))
    /\ light (masterfile g') = false
    /\ light (assistantfile g') = false
    /\ locationData (table g') = None
    /\ intercept (config g') = false.
Proof.
  intros Hen Hsch Hlatch Herr Hrole Hm Ha Hold Hmiss.
  destruct (selectionChange_dispatch _ _ _ _ _ Hen Hsch Hlatch Herr Hrole) as [-> _].
  unfold dispatch, clearHighlight, assistantMoved, clears. run.
  rewrite Hm, Ha. cbn.
  rewrite (bool_decide_eq_false_2 (Some (activeLine h a) = _)) by done.
  rewrite andb_false_r.
  rewrite (bool_decide_eq_false_2 (oldlines (assistantfile g1) = _)) by done.
  destruct (light (masterfile g1)) eqn:Hlm, (light (assistantfile g1)) eqn:Hla;
    repeat (progress (cbn; rewrite ?Hlm, ?Hla, ?Hm, ?Ha, ?Hmiss));
    rewrite <- ?app_assoc, ?app_nil_r; eexists; (split; [reflexivity|]); cbn; done.
Qed.

(** C7. The handler being past its guard and its role resolution with
    master [m] and assistant [a], and only the master's line having
    changed.  With bidirectional mapping off the cycle ends after the
    clearing of the highlights: no other call is made, the index, its
    active sub-mapping and the current entry are not touched, and nothing
    of the assistant changes but its highlight flag.  With bidirectional
    mapping on the master's previous line is advanced and the upward scan
    runs: when line [i] is the first line at or above the master's line
    on which the scan stops, with match array [pathMatch], then either the
    captured path is the assistant's and the assistant is revealed and
    highlighted at the captured line minus one, the entry looked up under
    the captured line (the master being highlighted over it when there is
    one), or the captured path is another file's and the handler is
    suspended in the navigation to that file.  The reveal needs a
    position: when the captured line minus one is below zero (a captured
    line [0]) the host refuses it, and the cycle ends with "Execution
    failed", the line and the entry recorded, nothing revealed or
    highlighted and no side flagged. *)
Theorem master_move_gated_by_mode h ev g tr g1 m a :
  isFeatureEnabled (config g) = false ->
  scheme h ev = "file" ->
  intercept (config g) = false ->
  error (config g) = false ->
  roleResolution h ev (onConfig (set_intercept true) g, tr) = (Normal tt, (g1, tr)) ->
  editor (masterfile g1) = Some m ->
  editor (assistantfile g1) = Some a ->
  oldlines (assistantfile g1) = Some (activeLine h a) ->
  oldlines (masterfile g1) <> Some (activeLine h m) ->
  (isFeatureEnabled1 (config g) = true ->
   exists g',
     selectionChange parseInt parseFloat h ev (g, tr)
     = Finished (g', (tr ++ clears g1 m a)%list)
     /\ table g' = table g1
     /\ oldlines (masterfile g') = oldlines (masterfile g1)
     /\ set_light false (assistantfile g') = set_light false (assistantfile g1)
     /\ light (masterfile g') = false
     /\ light (assistantfile g') = false
     /\ intercept (config g') = false)
  /\ (isFeatureEnabled1 (config g) = false ->
      forall i t pathMatch,
        (i <= activeLine h m)%nat ->
        lineAt h m i = Some t ->
        candidate (pathRegex (config g)) (skip (config g)) t = Some pathMatch ->
        (forall j, (i < j <= activeLine h m)%nat ->
           exists t', lineAt h m j = Some t'
             /\ candidate (pathRegex (config g)) (skip (config g)) t' = None) ->
        let target := minusOne (parseFloat (group pathMatch 2)) in
        let data := currentActiveFileLocationMap (table g1)
                      !! parseInt (group pathMatch 2) None in
        (Some (group pathMatch 1) = path (assistantfile g1) ->
         (negativeLine target = false ->
          exists g',
            selectionChange parseInt parseFloat h ev (g, tr)
            = Finished (g',
                (tr ++ clears g1 m a
                 ++ [RevealRange a target; HighlightLines a (Some target) 1]
                 ++ match data with
                    | Some d => [HighlightLines m (Some (Num (originalFileIndex d)))
                                   (highlightLineCount d)]
                    | None => [ShowInformationMessage "Execution failed"]
                    end)%list)
            /\ oldlines (masterfile g') = Some (activeLine h m)
            /\ line (assistantfile g') = Some target
            /\ locationData (table g') = data)
         /\ (negativeLine target = true ->
             exists g',
               selectionChange parseInt parseFloat h ev (g, tr)
               = Finished (g',
                   (tr ++ clears g1 m a
                    ++ [ShowInformationMessage "Execution failed"])%list)
               /\ oldlines (masterfile g') = Some (activeLine h m)
               /\ oldlines (assistantfile g') = oldlines (assistantfile g1)
               /\ line (assistantfile g') = Some target
               /\ locationData (table g') = data
               /\ light (masterfile g') = false
               /\ light (assistantfile g') = false
               /\ intercept (config g') = false))
        /\ (Some (group pathMatch 1) <> path (assistantfile g1) ->
            exists g',
              selectionChange parseInt parseFloat h ev (g, tr)
              = Awaiting pathMatch (g',
                  (tr ++ clears g1 m a
                   ++ [OpenFileAndJumpToLine (group pathMatch 1)
                         (minusOne (parseInt (group pathMatch 2) None))])%list)
              /\ oldlines (masterfile g') = Some (activeLine h m))).
Proof.
  intros Hen Hsch Hlatch Herr Hrole Hm Ha Hsame Hmoved.
  destruct (selectionChange_dispatch _ _ _ _ _ Hen Hsch Hlatch Herr Hrole)
    as (-> & <- & <- & <-).
  unfold dispatch, clearHighlight, masterMoved, commit, clears. run.
  rewrite Hm, Ha. cbn.
  rewrite (bool_decide_eq_false_2 (Some (activeLine h m) = _)) by done.
  rewrite (bool_decide_eq_true_2 (oldlines (assistantfile g1) = _)) by done.
  cbn.
  split.
  - intros Hsingle. rewrite Hsingle.
    destruct (light (masterfile g1)) eqn:Hlm, (light (assistantfile g1)) eqn:Hla;
      repeat (progress (cbn; rewrite ?Hlm, ?Hla, ?Hm, ?Ha));
      rewrite <- ?app_assoc, ?app_nil_r; eexists; (split; [reflexivity|]); cbn;
      rewrite ?Hlm, ?Hla; try done.
    all: destruct (assistantfile g1); cbn in *; subst; done.
  - intros Hdouble i t pm Hi Ht Hc Habove. rewrite Hdouble.
    assert (Hscan : scanUp (lineAt h m) (pathRegex (config g1)) (skip (config g1))
                      (S (activeLine h m)) = ScanFound pm).
    { apply (scanUp_first _ _ _ i t); [lia|done|done|].
      intros j Hj. apply Habove. lia. }
    split.
    + intros Hpath. split; intros Hneg.
      * destruct (currentActiveFileLocationMap (table g1)
                    !! parseInt (group pm 2) None) as [d|] eqn:Hdata;
        destruct (light (masterfile g1)) eqn:Hlm, (light (assistantfile g1)) eqn:Hla;
        repeat (progress (cbn; rewrite ?Hlm, ?Hla, ?Hm, ?Ha, ?Hscan, ?Hdata, ?Hneg,
                            ?(bool_decide_eq_true_2 _ Hpath)));
        rewrite <- ?app_assoc, ?app_nil_r; eexists; (split; [reflexivity|]); cbn; done.
      * destruct (light (masterfile g1)) eqn:Hlm, (light (assistantfile g1)) eqn:Hla;
        repeat (progress (cbn; rewrite ?Hlm, ?Hla, ?Hm, ?Ha, ?Hscan, ?Hneg,
                            ?(bool_decide_eq_true_2 _ Hpath)));
        rewrite <- ?app_assoc, ?app_nil_r; eexists; (split; [reflexivity|]); cbn;
        rewrite ?Hlm, ?Hla; done.
    + intros Hpath.
      destruct (light (masterfile g1)) eqn:Hlm, (light (assistantfile g1)) eqn:Hla;
      repeat (progress (cbn; rewrite ?Hlm, ?Hla, ?Hm, ?Ha, ?Hscan,
                          ?(bool_decide_eq_false_2 _ Hpath)));
      rewrite <- ?app_assoc, ?app_nil_r; eexists; (split; [reflexivity|]); cbn; done.
Qed.

(** What [jumptrace.close] does to the world. *)
Lemma close_effect w :
  let after := snd (toggleFeatureCommand w) in
  table (fst after) = table (fst w)
  /\ isFeatureEnabled (config (fst after)) = true
  /\ isFeatureEnabled1 (config (fst after)) = true
  /\ state (config (fst after)) = true
  /\ intercept (config (fst after)) = false
  /\ ((light (masterfile (fst w)) = true -> is_Some (editor (masterfile (fst w)))) ->
      (light (assistantfile (fst w)) = true -> is_Some (editor (assistantfile (fst w)))) ->
      fst (toggleFeatureCommand w) = Normal tt
      /\ light (masterfile (fst after)) = false
      /\ light (assistantfile (fst after)) = false
      /\ snd after
         = (snd w
            ++ (if light (masterfile (fst w))
                then [SetDecorations (default O (editor (masterfile (fst w)))) []]
                else [])
            ++ (if light (assistantfile (fst w))
                then [SetDecorations (default O (editor (assistantfile (fst w)))) []]
                else [])
            ++ [ShowInformationMessage "Mapping has been turned off"])%list).
Proof.
  destruct w as [g tr]. unfold toggleFeatureCommand, clearHighlight. run.
  destruct (light (masterfile g)) eqn:Hlm, (light (assistantfile g)) eqn:Hla,
    (editor (masterfile g)) as [m|] eqn:Hm, (editor (assistantfile g)) as [a|] eqn:Ha;
    repeat (progress (cbn; rewrite ?Hlm, ?Hla, ?Hm, ?Ha));
    repeat split; try done;
    try match goal with
        | H : true = true -> is_Some None |- _ => by destruct (H eq_refl) as [? [=]]
        end;
    by rewrite <- ?app_assoc.
Qed.

(** With an index that is not empty, [jumptrace.switchover] neither
    changes the index nor looks at the reference file. *)
Lemma switchover_no_read h w :
  size (fileLocationsMap (table (fst w))) <> O ->
  fileLocationsMap (table (fst (toggleFeatureCommand1 parseInt h w)))
  = fileLocationsMap (table (fst w))
  /\ exists new,
       snd (toggleFeatureCommand1 parseInt h w) = (snd w ++ new)%list
       /\ Forall (fun e => readsFile e = false) new.
Proof.
  destruct w as [g tr]. intros Hsize%Nat.eqb_neq. cbn [fst snd] in *.
  unfold toggleFeatureCommand1, switchoverBody. run. rewrite Hsize.
  destruct (state (config g)) eqn:Hst; cbn;
    destruct (doc (masterfile g)) as [d|] eqn:Hd; cbn;
    try (destruct (find _ _) eqn:Hf; cbn;
         try (destruct (showTextDocument h d) eqn:Hshow; cbn));
    (split; [reflexivity|]);
    rewrite <- ?app_assoc; eexists; (split; [reflexivity|]);
    repeat constructor.
Qed.

(** C10, as the code has it.  [jumptrace.close] sets the three mode flags
    back to off and frees the latch, and leaves the index, its active
    sub-mapping and the current entry as they are; when each highlighted
    side has its editor, it clears the highlights and tells the user.
    When the index is not empty, a [jumptrace.switchover] after it keeps
    the index and makes no call that looks at the reference file. *)
Theorem close_keeps_index_and_switchover_skips_extraction h w :
  let closed := snd (toggleFeatureCommand w) in
  (table (fst closed) = table (fst w)
   /\ isFeatureEnabled (config (fst closed)) = true
   /\ isFeatureEnabled1 (config (fst closed)) = true
   /\ state (config (fst closed)) = true
   /\ intercept (config (fst closed)) = false)
  /\ ((light (masterfile (fst w)) = true -> is_Some (editor (masterfile (fst w)))) ->
      (light (assistantfile (fst w)) = true -> is_Some (editor (assistantfile (fst w)))) ->
      fst (toggleFeatureCommand w) = Normal tt
      /\ light (masterfile (fst closed)) = false
      /\ light (assistantfile (fst closed)) = false
      /\ snd closed
         = (snd w
            ++ (if light (masterfile (fst w))
                then [SetDecorations (default O (editor (masterfile (fst w)))) []]
                else [])
            ++ (if light (assistantfile (fst w))
                then [SetDecorations (default O (editor (assistantfile (fst w)))) []]
                else [])
            ++ [ShowInformationMessage "Mapping has been turned off"])%list)
  /\ (size (fileLocationsMap (table (fst w))) <> O ->
      fileLocationsMap (table (fst (toggleFeatureCommand1 parseInt h closed)))
      = fileLocationsMap (table (fst w))
      /\ exists new,
           snd (toggleFeatureCommand1 parseInt h closed) = (snd closed ++ new)%list
           /\ Forall (fun e => readsFile e = false) new).
Proof.
  intros closed.
  destruct (close_effect w) as (Htable & Hen & Hen1 & Hst & Hlatch & Hclear).
  fold closed in Htable, Hen, Hen1, Hst, Hlatch, Hclear.
  split; [done|]. split; [done|].
  intros Hsize. rewrite <- Htable in Hsize.
  destruct (switchover_no_read h closed Hsize) as [Hmap Hnew].
  by rewrite Hmap, Htable.
Qed.

(** *** Further properties of the handler *)

Ltac unfoldHandler :=
  unfold selectionChange, selectionChangeResume, settle, release, handlerBody,
    resumeBody, dispatch, roleResolution, clearHighlight, assistantMoved,
    masterMoved, document_update, commit.

Ltac extendsTrace :=
  cbn [fst snd]; eexists; split;
  [ first [ reflexivity | symmetry; apply app_nil_r
          | rewrite <- ?app_assoc; reflexivity ]
  | repeat constructor ].

(** X13. The handler, from the event to its end or its suspension and
    from its resumption to its end, never writes to the index, to the
    master's document or editor, or to the configuration, the latch
    apart. *)
Theorem handler_frame h ev w pathMatch onceeditor :
  let w1 := worldOf (selectionChange parseInt parseFloat h ev w) in
  let w2 := worldOf (selectionChangeResume parseInt parseFloat h pathMatch onceeditor w) in
  (fileLocationsMap (table (fst w1)) = fileLocationsMap (table (fst w))
   /\ set_intercept false (config (fst w1)) = set_intercept false (config (fst w))
   /\ doc (masterfile (fst w1)) = doc (masterfile (fst w))
   /\ editor (masterfile (fst w1)) = editor (masterfile (fst w)))
  /\ (fileLocationsMap (table (fst w2)) = fileLocationsMap (table (fst w))
      /\ set_intercept false (config (fst w2)) = set_intercept false (config (fst w))
      /\ doc (masterfile (fst w2)) = doc (masterfile (fst w))
      /\ editor (masterfile (fst w2)) = editor (masterfile (fst w))).
Proof.
  destruct w as [g tr]. unfoldHandler. run. split.
  - repeat (case_match; cbn in *; simplify_eq; try done).
  - repeat (case_match; cbn in *; simplify_eq; try done).
Qed.

(** X14. The handler only adds to the calls made so far, and none of the
    calls it adds looks at the reference file on disk. *)
Theorem handler_calls h ev w pathMatch onceeditor :
  (exists new,
     snd (worldOf (selectionChange parseInt parseFloat h ev w)) = (snd w ++ new)%list
     /\ Forall (fun e => readsFile e = false) new)
  /\ (exists new,
        snd (worldOf (selectionChangeResume parseInt parseFloat h pathMatch onceeditor w))
        = (snd w ++ new)%list
        /\ Forall (fun e => readsFile e = false) new).
Proof.
  destruct w as [g tr]. unfoldHandler. run. split.
  - repeat (case_match; cbn in *; simplify_eq); extendsTrace.
  - repeat (case_match; cbn in *; simplify_eq); extendsTrace.
Qed.

(** X15. With bidirectional mapping off no event whatever suspends the
    handler in a navigation: every invocation finishes at once. *)
Theorem single_mode_never_suspends h ev w :
  isFeatureEnabled1 (config (fst w)) = true ->
  exists w', selectionChange parseInt parseFloat h ev w = Finished w'.
Proof.
  destruct w as [[mf af [] tb] tr]. cbn. intros ->. unfoldHandler. run.
  repeat (case_match; cbn in *; simplify_eq); eauto.
Qed.

(** X16. "A side flagged as highlighted has its editor" is an invariant of
    the extension: the handler, its resumption, [jumptrace.close] and
    [jumptrace.switchover] all keep it. *)
Theorem lightsHaveEditors_preserved h ev pathMatch onceeditor w :
  lightsHaveEditors (fst w) ->
  lightsHaveEditors (fst (worldOf (selectionChange parseInt parseFloat h ev w)))
  /\ lightsHaveEditors
       (fst (worldOf (selectionChangeResume parseInt parseFloat h pathMatch onceeditor w)))
  /\ lightsHaveEditors (fst (snd (toggleFeatureCommand w)))
  /\ lightsHaveEditors (fst (toggleFeatureCommand1 parseInt h w)).
Proof.
  destruct w as [[[em dm lm nm om pm] [ea da la na oa pa] cfg tb] tr].
  unfold lightsHaveEditors. cbn. intros [Hm Ha].
  repeat split.
  all: unfoldHandler; unfold toggleFeatureCommand, toggleFeatureCommand1,
         switchoverBody, clearHighlight, release; run.
  all: repeat (case_match; cbn in *; simplify_eq); try done; eauto.
Qed.

(** X17. The no-op filter.  Past the guard and the role resolution, an
    event that finds the master and the assistant on the lines recorded
    for them changes nothing and makes no call. *)
Theorem unchanged_lines_are_filtered h ev g tr g1 m a :
  isFeatureEnabled (config g) = false ->
  scheme h ev = "file" ->
  intercept (config g) = false ->
  error (config g) = false ->
  roleResolution h ev (onConfig (set_intercept true) g, tr) = (Normal tt, (g1, tr)) ->
  editor (masterfile g1) = Some m ->
  editor (assistantfile g1) = Some a ->
  oldlines (masterfile g1) = Some (activeLine h m) ->
  oldlines (assistantfile g1) = Some (activeLine h a) ->
  selectionChange parseInt parseFloat h ev (g, tr)
  = Finished (onConfig (set_intercept false) g1, tr).
Proof.
  intros Hen Hsch Hlatch Herr Hrole Hm Ha Holdm Holda.
  destruct (selectionChange_dispatch _ _ _ _ _ Hen Hsch Hlatch Herr Hrole) as [-> _].
  unfold dispatch. run. rewrite Hm, Ha, Holdm, Holda.
  by rewrite !bool_decide_eq_true_2.
Qed.

(** X18. An event from an editor that is neither the master nor the
    assistant, on a file the index does not know (or whose path has no
    normal form), ends the cycle with no call; but the editor has already
    taken the assistant's place and its path the assistant's path, while
    the assistant's highlight flag, lines and the active sub-mapping are
    those of the former assistant. *)
Theorem untracked_editor_becomes_assistant h ev g tr :
  isFeatureEnabled (config g) = false ->
  scheme h ev = "file" ->
  intercept (config g) = false ->
  error (config g) = false ->
  editor (masterfile g) <> Some ev ->
  editor (assistantfile g) <> Some ev ->
  let p := getActiveEditorFilePath (osName (config g)) (fsPath h ev) in
  (forall p', p = Some p' -> fileLocationsMap (table g) !! p' = None) ->
  exists g',
    selectionChange parseInt parseFloat h ev (g, tr) = Finished (g', tr)
    /\ assistantfile g' = set_path p (set_editor (Some ev) (assistantfile g))
    /\ masterfile g' = masterfile g
    /\ table g' = table g
    /\ intercept (config g') = false.
Proof.
  intros Hen Hsch Hlatch Herr Hm Ha p Hmiss. subst p.
  unfold selectionChange, handlerBody, settle, release, roleResolution. cbn [fst snd].
  rewrite Hen, Hlatch, Herr, Hsch. cbn [orb negb bool_decide].
  rewrite bool_decide_eq_true_2 by done. cbn [orb negb]. run.
  rewrite !bool_decide_eq_false_2 by done. cbn.
  destruct (getActiveEditorFilePath (osName (config g)) (fsPath h ev)) as [p'|] eqn:Hp.
  - destruct (falsy (Some p')) eqn:Hf; cbn; [eauto 10|].
    rewrite (Hmiss p' eq_refl). cbn. eauto 10.
  - cbn. eauto 10.
Qed.

(** A line that is not below zero is accepted as a position. *)
Lemma negativeLine_Num_nonneg z : 0 <= z -> negativeLine (Num z) = false.
Proof. intros Hz. unfold negativeLine. apply Z.ltb_ge. exact Hz. Qed.

Lemma assistant_move_reveals_master_aux h ev g tr g1 m a d :
  isFeatureEnabled (config g) = false ->
  scheme h ev = "file" ->
  intercept (config g) = false ->
  error (config g) = false ->
  roleResolution h ev (onConfig (set_intercept true) g, tr) = (Normal tt, (g1, tr)) ->
  editor (masterfile g1) = Some m ->
  editor (assistantfile g1) = Some a ->
  oldlines (assistantfile g1) <> Some (activeLine h a) ->
  currentActiveFileLocationMap (table g1) !! Num (Z.of_nat (activeLine h a) + 1) = Some d ->
  0 <= originalFileIndex d ->
  exists g',
    selectionChange parseInt parseFloat h ev (g, tr)
    = Finished (g',
        (tr ++ clears g1 m a
         ++ [RevealRange m (Num (originalFileIndex d));
             HighlightLines a (Some (Num (Z.of_nat (activeLine h a)))) 1;
             HighlightLines m (Some (Num (originalFileIndex d)))
               (highlightLineCount d)])%list)
    /\ oldlines (masterfile g') = Some (activeLine h m)
    /\ oldlines (assistantfile g') = Some (activeLine h a)
    /\ light (masterfile g') = true
    /\ light (assistantfile g') = true
    /\ locationData (table g') = Some d
    /\ intercept (config g') = false.
Proof.
  intros Hen Hsch Hlatch Herr Hrole Hm Ha Hold Hhit Hpos.
  pose proof (negativeLine_Num_nonneg _ Hpos) as Hneg.
  destruct (selectionChange_dispatch _ _ _ _ _ Hen Hsch Hlatch Herr Hrole) as [-> _].
  unfold dispatch, clearHighlight, assistantMoved, commit, clears. run.
  rewrite Hm, Ha. cbn.
  rewrite (bool_decide_eq_false_2 (Some (activeLine h a) = _)) by done.
  rewrite andb_false_r.
  rewrite (bool_decide_eq_false_2 (oldlines (assistantfile g1) = _)) by done.
  destruct (light (masterfile g1)) eqn:Hlm, (light (assistantfile g1)) eqn:Hla;
    repeat (progress (cbn; rewrite ?Hlm, ?Hla, ?Hm, ?Ha, ?Hhit, ?Hneg));
    rewrite <- ?app_assoc, ?app_nil_r; eexists; (split; [reflexivity|]); cbn; done.
Qed.

(** X19. assistant -> master.  Past the guard and the role resolution,
    when the assistant's line has changed and the active sub-mapping has
    an entry for that line plus one, the handler clears the highlights,
    reveals the master at the entry's offset, highlights the assistant's
    line and the entry's block in the master, records both current lines
    and flags both sides as highlighted.  The offset of the entry is not
    negative, as is every offset that the extraction stores: the host
    refuses a position on a negative line. *)
Theorem assistant_move_reveals_master h ev g tr g1 m a d :
  isFeatureEnabled (config g) = false ->
  scheme h ev = "file" ->
  intercept (config g) = false ->
  error (config g) = false ->
  roleResolution h ev (onConfig (set_intercept true) g, tr) = (Normal tt, (g1, tr)) ->
  editor (masterfile g1) = Some m ->
  editor (assistantfile g1) = Some a ->
  oldlines (assistantfile g1) <> Some (activeLine h a) ->
  currentActiveFileLocationMap (table g1) !! Num (Z.of_nat (activeLine h a) + 1) = Some d ->
  0 <= originalFileIndex d ->
  exists g',
    selectionChange parseInt parseFloat h ev (g, tr)
    = Finished (g',
        (tr ++ clears g1 m a
         ++ [RevealRange m (Num (originalFileIndex d));
             HighlightLines a (Some (Num (Z.of_nat (activeLine h a)))) 1;
             HighlightLines m (Some (Num (originalFileIndex d)))
               (highlightLineCount d)])%list)
    /\ oldlines (masterfile g') = Some (activeLine h m)
    /\ oldlines (assistantfile g') = Some (activeLine h a)
    /\ light (masterfile g') = true
    /\ light (assistantfile g') = true
    /\ locationData (table g') = Some d
    /\ intercept (config g') = false.
Proof.
  exact (assistant_move_reveals_master_aux h ev g tr g1 m a d).
Qed.

(** X20. From the reference file to the screen.  When the index is the
    one extracted from [lines] and the active sub-mapping is the index's
    sub-mapping for [p], a move of the assistant to a source line that
    line [i] of the reference file is the first to name reveals the master
    at line [i] and highlights there the block of line [i]: the line and
    the skipped lines right below it. *)
Theorem source_line_reveals_first_occurrence pathRe skipRe lines p i l
    h ev g tr g1 m a :
  isFeatureEnabled (config g) = false ->
  scheme h ev = "file" ->
  intercept (config g) = false ->
  error (config g) = false ->
  roleResolution h ev (onConfig (set_intercept true) g, tr) = (Normal tt, (g1, tr)) ->
  editor (masterfile g1) = Some m ->
  editor (assistantfile g1) = Some a ->
  oldlines (assistantfile g1) <> Some (activeLine h a) ->
  fileLocationsMap (table g1) = extractLines parseInt pathRe skipRe lines ∅ ->
  fileLocationsMap (table g1) !! p = Some (currentActiveFileLocationMap (table g1)) ->
  lines !! i = Some l ->
  tokenOf parseInt pathRe skipRe l = Some (p, Num (Z.of_nat (activeLine h a) + 1)) ->
  (forall j l', (j < i)%nat -> lines !! j = Some l' ->
     tokenOf parseInt pathRe skipRe l'
     <> Some (p, Num (Z.of_nat (activeLine h a) + 1))) ->
  exists g',
    selectionChange parseInt parseFloat h ev (g, tr)
    = Finished (g',
        (tr ++ clears g1 m a
         ++ [RevealRange m (Num (Z.of_nat i));
             HighlightLines a (Some (Num (Z.of_nat (activeLine h a)))) 1;
             HighlightLines m (Some (Num (Z.of_nat i)))
               (Z.of_nat (boundary skipRe lines (S i)) - Z.of_nat i)])%list)
    /\ locationData (table g') = Some (entryAt skipRe lines i).
Proof.
  intros Hen Hsch Hlatch Herr Hrole Hm Ha Hold Hindex Hsub Hl Htok Hfirst.
  assert (Hhit : currentActiveFileLocationMap (table g1)
                   !! Num (Z.of_nat (activeLine h a) + 1)
                 = Some (entryAt skipRe lines i)).
  { pose proof (extractLines_lookup parseInt pathRe skipRe lines ∅ p
                  (Num (Z.of_nat (activeLine h a) + 1))) as Hlook.
    rewrite <- Hindex in Hlook. unfold lookupLocation at 1 in Hlook.
    rewrite Hsub in Hlook. cbn [mbind option_bind] in Hlook. rewrite Hlook.
    assert (list_find
              (fun l => tokenOf parseInt pathRe skipRe l
                        = Some (p, Num (Z.of_nat (activeLine h a) + 1))) lines
            = Some (i, l)) as ->; [|reflexivity].
    apply list_find_Some. repeat split; try done.
    intros j y Hy Hj. by apply (Hfirst j y). }
  destruct (assistant_move_reveals_master_aux h ev g tr g1 m a _
              Hen Hsch Hlatch Herr Hrole Hm Ha Hold Hhit (Nat2Z.is_nonneg i))
    as (g' & Heq & _ & _ & _ & _ & Hdata & _).
  exists g'. split; [exact Heq|exact Hdata].
Qed.

(** The scan finds nothing when no line at or above its start is a
    candidate. *)
Lemma scanUp_exhausted text pathRe skipRe : forall n,
  (forall j, (j < n)%nat ->
     exists t, text j = Some t /\ candidate pathRe skipRe t = None) ->
  scanUp text pathRe skipRe n = ScanExhausted.
Proof.
  induction n as [|n IH]; intros Hall; [reflexivity|].
  rewrite scanUp_S. destruct (Hall n ltac:(lia)) as (t & -> & ->).
  apply IH. intros j Hj. apply Hall. lia.
Qed.

(** X21. master -> assistant with nothing to find.  With bidirectional
    mapping on and only the master's line changed, when no line from the
    master's line up to the top of the reference file is a candidate, the
    handler does not stop there: it goes on to the final block with what the
    last cycle left, highlighting again the assistant at its last target
    line and the master over the last entry (or telling "Execution failed"
    when there is no last entry), and records both current lines. *)
Theorem exhausted_scan_repeats_last_entry h ev g tr g1 m a :
  isFeatureEnabled (config g) = false ->
  scheme h ev = "file" ->
  intercept (config g) = false ->
  error (config g) = false ->
  roleResolution h ev (onConfig (set_intercept true) g, tr) = (Normal tt, (g1, tr)) ->
  editor (masterfile g1) = Some m ->
  editor (assistantfile g1) = Some a ->
  oldlines (assistantfile g1) = Some (activeLine h a) ->
  oldlines (masterfile g1) <> Some (activeLine h m) ->
  isFeatureEnabled1 (config g) = false ->
  (forall j, (j <= activeLine h m)%nat ->
     exists t, lineAt h m j = Some t
       /\ candidate (pathRegex (config g)) (skip (config g)) t = None) ->
  exists g',
    selectionChange parseInt parseFloat h ev (g, tr)
    = Finished (g',
        (tr ++ clears g1 m a
         ++ [HighlightLines a (line (assistantfile g1)) 1]
         ++ match locationData (table g1) with
            | Some d => [HighlightLines m (Some (Num (originalFileIndex d)))
                           (highlightLineCount d)]
            | None => [ShowInformationMessage "Execution failed"]
            end)%list)
    /\ oldlines (masterfile g') = Some (activeLine h m)
    /\ oldlines (assistantfile g') = Some (activeLine h a)
    /\ table g' = table g1
    /\ line (assistantfile g') = line (assistantfile g1)
    /\ light (masterfile g') = bool_decide (is_Some (locationData (table g1)))
    /\ intercept (config g') = false.
Proof.
  intros Hen Hsch Hlatch Herr Hrole Hm Ha Hsame Hmoved Hdouble Hnone.
  destruct (selectionChange_dispatch _ _ _ _ _ Hen Hsch Hlatch Herr Hrole)
    as (-> & Hd' & Hre & Hsk).
  rewrite <- Hd' in Hdouble. rewrite <- Hre, <- Hsk in Hnone.
  assert (Hscan : scanUp (lineAt h m) (pathRegex (config g1)) (skip (config g1))
                    (S (activeLine h m)) = ScanExhausted).
  { apply scanUp_exhausted. intros j Hj. apply Hnone. lia. }
  unfold dispatch, clearHighlight, masterMoved, commit, clears. run.
  rewrite Hm, Ha. cbn.
  rewrite (bool_decide_eq_false_2 (Some (activeLine h m) = _)) by done.
  rewrite (bool_decide_eq_true_2 (oldlines (assistantfile g1) = _)) by done.
  cbn. rewrite Hdouble.
  destruct (locationData (table g1)) as [d|] eqn:Hdata;
    destruct (light (masterfile g1)) eqn:Hlm, (light (assistantfile g1)) eqn:Hla;
    repeat (progress (cbn; rewrite ?Hlm, ?Hla, ?Hm, ?Ha, ?Hscan, ?Hdata));
    rewrite <- ?app_assoc, ?app_nil_r; eexists; (split; [reflexivity|]); cbn;
    rewrite ?Hlm; repeat split; try done.
  all: destruct (table g1); cbn in *; subst; done.
Qed.

(** X22. The end of a navigation.  When [openFileAndJumpToLine] has
    failed, the resumed handler only frees the latch.  When it has given
    an editor, that editor becomes the assistant with its normalised path;
    the sub-mapping is looked up under the captured path, as written in
    the reference file: without one the cycle ends there, the former
    sub-mapping still active; with one it becomes the active sub-mapping,
    the entry is looked up under the captured line, the assistant is
    highlighted at that line minus one and the master over the entry (or
    "Execution failed" is told when there is none), and both current lines
    are recorded. *)
Theorem navigation_resumed h pathMatch g tr m :
  editor (masterfile g) = Some m ->
  selectionChangeResume parseInt parseFloat h pathMatch None (g, tr)
  = Finished (onConfig (set_intercept false) g, tr)
  /\ (forall e p,
        getActiveEditorFilePath (osName (config g)) (fsPath h e) = Some p ->
        (fileLocationsMap (table g) !! group pathMatch 1 = None ->
         exists g',
           selectionChangeResume parseInt parseFloat h pathMatch (Some e) (g, tr)
           = Finished (g', (tr ++ [LoggerLog p])%list)
           /\ assistantfile g' = set_path (Some p) (set_editor (Some e) (assistantfile g))
           /\ masterfile g' = masterfile g
           /\ table g' = table g
           /\ intercept (config g') = false)
        /\ (forall sub,
              fileLocationsMap (table g) !! group pathMatch 1 = Some sub ->
              let target := minusOne (parseFloat (group pathMatch 2)) in
              let data := sub !! parseInt (group pathMatch 2) None in
              exists g',
                selectionChangeResume parseInt parseFloat h pathMatch (Some e) (g, tr)
                = Finished (g',
                    (tr ++ [LoggerLog p; HighlightLines e (Some target) 1]
                     ++ match data with
                        | Some d => [HighlightLines m (Some (Num (originalFileIndex d)))
                                       (highlightLineCount d)]
                        | None => [ShowInformationMessage "Execution failed"]
                        end)%list)
                /\ editor (assistantfile g') = Some e
                /\ path (assistantfile g') = Some p
                /\ line (assistantfile g') = Some target
                /\ currentActiveFileLocationMap (table g') = sub
                /\ locationData (table g') = data
                /\ oldlines (masterfile g') = Some (activeLine h m)
                /\ oldlines (assistantfile g') = Some (activeLine h e)
                /\ light (assistantfile g')
                   = (light (assistantfile g) || bool_decide (is_Some data))
                /\ intercept (config g') = false)).
Proof.
  intros Hm. split; [reflexivity|].
  intros e p Hp.
  pose proof (getActiveEditorFilePath_not_falsy _ _ _ Hp) as Hf.
  unfold selectionChangeResume, settle, release, resumeBody, commit. run.
  rewrite Hp, Hf. cbn. split.
  - intros ->. cbn. eauto 10.
  - intros sub ->. cbn. rewrite Hm. cbn.
    destruct (sub !! parseInt (group pathMatch 2) None) as [d|] eqn:Hd; cbn;
      rewrite <- ?app_assoc; eexists; (split; [reflexivity|]); cbn;
      rewrite ?orb_true_r, ?orb_false_r; done.
Qed.

(** *** Further properties of the commands *)

Lemma switchover_flags_aux h w :
  let w' := toggleFeatureCommand1 parseInt h w in
  isFeatureEnabled (config (fst w')) = false
  /\ state (config (fst w')) = negb (state (config (fst w)))
  /\ isFeatureEnabled1 (config (fst w'))
     = (isFeatureEnabled1 (config (fst w)) && state (config (fst w)))
  /\ intercept (config (fst w')) = false.
Proof.
  destruct w as [[mf af [] tb] tr].
  unfold toggleFeatureCommand1, switchoverBody, release. run.
  repeat (case_match; cbn in *; simplify_eq); rewrite ?andb_true_r, ?andb_false_r; done.
Qed.

(** X23. What [jumptrace.switchover] does to the mode flags, whatever else
    happens in it: mapping is on, [state] is flipped, the latch is free,
    and bidirectional mapping is on unless it was off and [state] was set
    (the command never turns bidirectional mapping off once it is on). *)
Theorem switchover_flags h w :
  let w' := toggleFeatureCommand1 parseInt h w in
  isFeatureEnabled (config (fst w')) = false
  /\ state (config (fst w')) = negb (state (config (fst w)))
  /\ isFeatureEnabled1 (config (fst w'))
     = (isFeatureEnabled1 (config (fst w)) && state (config (fst w)))
  /\ intercept (config (fst w')) = false.
Proof. exact (switchover_flags_aux h w). Qed.

(** X24. The cycle of the modes.  After [jumptrace.close], a first
    [jumptrace.switchover] gives single mapping, a second one gives
    bidirectional mapping, and a third one leaves bidirectional mapping on
    although [state] says single: only [jumptrace.close] brings single
    mapping back. *)
Theorem mode_cycle_after_close h1 h2 h3 w :
  let closed := snd (toggleFeatureCommand w) in
  let w1 := toggleFeatureCommand1 parseInt h1 closed in
  let w2 := toggleFeatureCommand1 parseInt h2 w1 in
  let w3 := toggleFeatureCommand1 parseInt h3 w2 in
  (isFeatureEnabled (config (fst w1)) = false
   /\ isFeatureEnabled1 (config (fst w1)) = true)
  /\ (isFeatureEnabled (config (fst w2)) = false
      /\ isFeatureEnabled1 (config (fst w2)) = false)
  /\ (isFeatureEnabled (config (fst w3)) = false
      /\ isFeatureEnabled1 (config (fst w3)) = false
      /\ state (config (fst w3)) = false).
Proof.
  intros closed w1 w2 w3.
  destruct (close_effect w) as (_ & _ & Hc1 & Hcs & _).
  fold closed in Hc1, Hcs.
  destruct (switchover_flags_aux h1 closed) as (He1 & Hs1 & Hf1 & _).
  destruct (switchover_flags_aux h2 w1) as (He2 & Hs2 & Hf2 & _).
  destruct (switchover_flags_aux h3 w2) as (He3 & Hs3 & Hf3 & _).
  fold w1 in He1, Hs1, Hf1, Hs2, Hf2. fold w2 in He2, Hs2, Hf2, Hs3, Hf3.
  fold w3 in He3, Hs3, Hf3.
  rewrite Hc1, Hcs in *. cbn in *.
  rewrite Hs1, Hf1 in *. cbn in *. rewrite Hs2, Hf2 in *. cbn in *.
  rewrite Hs3, Hf3. cbn. done.
Qed.

(** X25. After [jumptrace.close] every selection event is ignored: the
    handler leaves the world as the command left it. *)
Theorem closed_mapping_ignores_events h ev w :
  selectionChange parseInt parseFloat h ev (snd (toggleFeatureCommand w))
  = Finished (snd (toggleFeatureCommand w)).
Proof.
  destruct (close_effect w) as (_ & Hen & _).
  unfold selectionChange. cbn zeta in Hen. by rewrite Hen.
Qed.

(** X26. The first [jumptrace.switchover].  With an empty index and a
    reference file that the host opens and shows, the command leaves as
    index what [extractFileLocations] returns, the opened document as the
    master's document, and the editor that shows it as the editor of the
    master and of the assistant alike; the error flag is not touched. *)
Theorem first_switchover_builds_index h g tr d e :
  size (fileLocationsMap (table g)) = O ->
  openTextDocument h (filepath (config g)) = Some d ->
  showTextDocument h d = Some e ->
  let w' := toggleFeatureCommand1 parseInt h (g, tr) in
  fileLocationsMap (table (fst w'))
  = fst (extractFileLocations parseInt h (filepath (config g))
           (fileLocationsMap (table g)) (pathRegex (config g)) (skip (config g)))
  /\ doc (masterfile (fst w')) = Some d
  /\ editor (masterfile (fst w')) = Some e
  /\ editor (assistantfile (fst w')) = Some e
  /\ error (config (fst w')) = error (config g)
  /\ intercept (config (fst w')) = false.
Proof.
  intros Hsize Hopen Hshow.
  unfold toggleFeatureCommand1, switchoverBody, release. run.
  rewrite Hsize. cbn.
  destruct (state (config g)) eqn:Hst; cbn; rewrite Hopen; cbn; rewrite Hshow; cbn;
    destruct (find _ _); cbn; rewrite ?Hshow; cbn; done.
Qed.

(** X27. A failed first [jumptrace.switchover] is final.  With an empty
    index and a reference file that the host cannot open, the command
    tells "config error}", sets the error flag and frees the latch; from
    then on every selection event is ignored, and neither command clears
    the flag. *)
Theorem failed_switchover_disables_handler h g tr :
  size (fileLocationsMap (table g)) = O ->
  openTextDocument h (filepath (config g)) = None ->
  let w' := toggleFeatureCommand1 parseInt h (g, tr) in
  error (config (fst w')) = true
  /\ intercept (config (fst w')) = false
  /\ last (snd w') = Some (ShowInformationMessage "config error}")
  /\ (forall h' ev, selectionChange parseInt parseFloat h' ev w' = Finished w')
  /\ (forall h', error (config (fst (toggleFeatureCommand1 parseInt h' w'))) = true)
  /\ error (config (fst (snd (toggleFeatureCommand w')))) = true.
Proof.
  intros Hsize Hopen.
  assert (Hsticky : forall w0, error (config (fst w0)) = true ->
            (forall h', error (config (fst (toggleFeatureCommand1 parseInt h' w0))) = true)
            /\ error (config (fst (snd (toggleFeatureCommand w0)))) = true).
  { intros [[mf af [] tb] tr0]. cbn. intros ->. split; [intros h'|].
    all: unfold toggleFeatureCommand, toggleFeatureCommand1, switchoverBody,
           clearHighlight, release; run.
    all: repeat (case_match; cbn in *; simplify_eq); done. }
  assert (Herr : error (config (fst (toggleFeatureCommand1 parseInt h (g, tr)))) = true
                 /\ intercept (config (fst (toggleFeatureCommand1 parseInt h (g, tr)))) = false
                 /\ last (snd (toggleFeatureCommand1 parseInt h (g, tr)))
                    = Some (ShowInformationMessage "config error}")).
  { unfold toggleFeatureCommand1, switchoverBody, release. run.
    rewrite Hsize. cbn.
    destruct (state (config g)) eqn:Hst; cbn; rewrite Hopen; cbn;
      rewrite last_snoc; done. }
  destruct Herr as (Herr & Hlatch & Hlast). cbn zeta.
  destruct (Hsticky _ Herr) as [Htoggle Hclose].
  repeat split; try done.
  intros h' ev. unfold selectionChange. rewrite Herr.
  by rewrite !orb_true_r.
Qed.

End Handler.

(** ** The properties on the fixtures *)

(** C2, as the code has it.  Extracting the text of the lines ["a.c:1"],
    ["  note"], ["a.c:2"] into the empty index, with the default skip
    expression and the path expression of an unknown platform, yields
    exactly two entries: [a.c:1] at offset 0 with a highlight count of 2
    (its own line and the skipped line), and [a.c:2] at offset 2 with a
    highlight count of 1. *)
Theorem note_fixture_entries :
  fst (extractFileLocations parseIntDigits (hostWithFile "ref.log" noteText)
         "ref.log" ∅ unknownPathRegex skipLeadingSpace)
  = {[ "a.c" :=
         {[ Num 1 := {| originalFileIndex := 0; highlightLineCount := 2 |};
            Num 2 := {| originalFileIndex := 2; highlightLineCount := 1 |} ]} ]}.
Proof. vm_compute. reflexivity. Qed.

(** The entry of [a.c:1] in that index is not the one with a highlight
    count of 3. *)
Lemma note_fixture_span_is_not_three :
  lookupLocation
    (fst (extractFileLocations parseIntDigits (hostWithFile "ref.log" noteText)
            "ref.log" ∅ unknownPathRegex skipLeadingSpace))
    "a.c" (Num 1)
  <> Some {| originalFileIndex := 0; highlightLineCount := 3 |}.
Proof. vm_compute. discriminate. Qed.

(** The key of ["a.c:7"], filed on lines 1 and 3, keeps the entry of line 1. *)
Lemma extraction_keeps_topmost_witness :
  lookupLocation
    (fst (extractFileLocations parseIntDigits (hostWithFile "ref.log" twiceText)
            "ref.log" ∅ unknownPathRegex skipLeadingSpace))
    "a.c" (Num 7)
  = Some (entryAt skipLeadingSpace (splitLines twiceText) 1)
  /\ originalFileIndex (entryAt skipLeadingSpace (splitLines twiceText) 1) = 1.
Proof.
  apply (extraction_keeps_topmost parseIntDigits unknownPathRegex skipLeadingSpace
           (hostWithFile "ref.log" twiceText) "ref.log" ∅ twiceText 1 "a.c:7"
           "a.c" (Num 7)).
  - reflexivity.
  - reflexivity.
  - reflexivity.
  - reflexivity.
  - intros j l' Hj Hl. destruct j as [|j]; [|lia].
    vm_compute in Hl. injection Hl as <-. vm_compute. discriminate.
Defined.

(** The entry of [a.c:2], written in the first iteration over the lines
    ["a.c:1"], ["  note"], ["a.c:2"]. *)
Lemma stored_highlightLineCount_positive_witness :
  1 <= highlightLineCount {| originalFileIndex := 2; highlightLineCount := 1 |}
  \/ lookupLocation ∅ "a.c" (Num 2)
     = Some {| originalFileIndex := 2; highlightLineCount := 1 |}.
Proof.
  apply (stored_highlightLineCount_positive parseIntDigits unknownPathRegex
           skipLeadingSpace (hostWithFile "ref.log" noteText) "ref.log" ∅
           (splitLines noteText) 1 "a.c" (Num 2)).
  left. vm_compute. reflexivity.
Defined.

(** A file that does not exist leaves an index with one entry as it is. *)
Lemma extraction_failure_keeps_index_witness :
  fst (extractFileLocations parseIntDigits (hostWithFile "ref.log" noteText)
         "missing.log" oneEntryIndex unknownPathRegex skipLeadingSpace)
  = oneEntryIndex
  /\ exists message,
       last (snd (extractFileLocations parseIntDigits (hostWithFile "ref.log" noteText)
                    "missing.log" oneEntryIndex unknownPathRegex skipLeadingSpace))
       = Some (ShowErrorMessage message).
Proof.
  apply (extraction_failure_keeps_index parseIntDigits unknownPathRegex
           skipLeadingSpace (hostWithFile "ref.log" noteText) "missing.log"
           oneEntryIndex).
  left. reflexivity.
Defined.

(** On Windows the line ["c:\src\a.c:10"] is filed under the path as
    written, which is not its own normal form, and the lookup of the
    normal form finds nothing. *)
Lemma windows_key_is_not_normalised :
  ~ (forall key, is_Some (windowsIndex !! key) ->
                 getActiveEditorFilePath "Windows" key = Some key)
  /\ getActiveEditorFilePath "Windows" "c:\src\a.c" = Some "C:/src/a.c"
  /\ windowsIndex !! "C:/src/a.c" = None.
Proof.
  split; [|split; vm_compute; reflexivity].
  intros H. specialize (H "c:\src\a.c").
  assert (Hkey : is_Some (windowsIndex !! "c:\src\a.c")) by (vm_compute; eauto).
  apply H in Hkey. vm_compute in Hkey. discriminate.
Qed.

(** A new editor on [/src/b.c] gets past the lookup of its path. *)
Lemma index_keys_are_captured_paths_witness :
  (forall p, is_Some (sessionIndex !! p) <->
             exists i l n, splitLines sessionText !! i = Some l
               /\ tokenOf parseIntDigits posixPathRegex skipLeadingSpace l = Some (p, n))
  /\ (fst (roleResolution (sessionHost 0 9) sourceEditorB
             (sessionGlobals true false, [])) = Normal tt <->
      exists i l n, splitLines sessionText !! i = Some l
        /\ tokenOf parseIntDigits posixPathRegex skipLeadingSpace l
           = Some ("/src/b.c", n)).
Proof.
  apply (index_keys_are_captured_paths parseIntDigits posixPathRegex skipLeadingSpace
           (splitLines sessionText) (sessionHost 0 9) sourceEditorB
           (sessionGlobals true false) [] "/src/b.c").
  - reflexivity.
  - discriminate.
  - discriminate.
  - reflexivity.
Defined.

(** An event with the latch held is dropped; an event on a line of the
    reference file that names another file suspends the handler with the
    latch held. *)
Lemma latch_drops_and_is_released_witness :
  selectionChange parseIntDigits parseFloatDigits (sessionHost 1 9) masterEditor
    (sessionGlobals false true, [])
  = Finished (sessionGlobals false true, [])
  /\ intercept (config (fst (worldOf
       (selectionChange parseIntDigits parseFloatDigits (sessionHost 1 9)
          masterEditor (sessionGlobals false false, []))))) = false
  /\ intercept (config (fst (worldOf
       (selectionChange parseIntDigits parseFloatDigits (sessionHost 2 9)
          masterEditor (sessionGlobals false false, []))))) = true.
Proof.
  split; [|split].
  - apply (proj1 (latch_drops_and_is_released parseIntDigits parseFloatDigits
                    (sessionHost 1 9) masterEditor (sessionGlobals false true, []))).
    reflexivity.
  - apply (proj1 (proj2 (latch_drops_and_is_released parseIntDigits parseFloatDigits
                    (sessionHost 1 9) masterEditor (sessionGlobals false false, [])))
             eq_refl).
    vm_compute. reflexivity.
  - apply (proj2 (proj2 (latch_drops_and_is_released parseIntDigits parseFloatDigits
                    (sessionHost 2 9) masterEditor (sessionGlobals false false, [])))
             ["/src/b.c:12"; "/src/b.c"; "12"]).
    vm_compute. reflexivity.
Defined.

(** The assistant moves from line 9 to line 7, for which the index has no
    entry. *)
Lemma assistant_lookup_miss_witness :
  exists g',
    selectionChange parseIntDigits parseFloatDigits (sessionHost 0 7) sourceEditorA
      (sessionGlobals true false, [])
    = Finished (g', [SetDecorations masterEditor []; SetDecorations sourceEditorA []])
    /\ oldlines (masterfile g') = Some 0%nat
    /\ oldlines (assistantfile g') = Some 7%nat
    /\ line (assistantfile g') = Some (Num 7)
    /\ light (masterfile g') = false
    /\ light (assistantfile g') = false
    /\ locationData (table g') = None
    /\ intercept (config g') = false.
Proof.
  apply (assistant_lookup_miss parseIntDigits parseFloatDigits (sessionHost 0 7)
           sourceEditorA (sessionGlobals true false) []
           (onConfig (set_intercept true) (sessionGlobals true false))
           masterEditor sourceEditorA).
  - reflexivity.
  - reflexivity.
  - reflexivity.
  - reflexivity.
  - vm_compute. reflexivity.
  - reflexivity.
  - reflexivity.
  - discriminate.
  - vm_compute. reflexivity.
Defined.

(** In that cycle the assistant's previous line is advanced from 9 to 7
    although the lookup of line 8 misses. *)
Lemma assistant_tracker_is_advanced :
  let w := (sessionGlobals true false, []) in
  let w' := worldOf (selectionChange parseIntDigits parseFloatDigits
                       (sessionHost 0 7) sourceEditorA w) in
  activeLine (sessionHost 0 7) sourceEditorA = 7%nat
  /\ oldlines (assistantfile (fst w)) = Some 9%nat
  /\ currentActiveFileLocationMap (table (fst w)) !! Num 8 = None
  /\ oldlines (assistantfile (fst w')) = Some 7%nat
  /\ oldlines (assistantfile (fst w')) <> oldlines (assistantfile (fst w)).
Proof. vm_compute. repeat split; discriminate. Qed.

(** The master moves from line 0 to line 1, a skipped line under
    ["/src/a.c:10"], the assistant staying on line 9 of [/src/a.c]: with
    bidirectional mapping off only the highlights are cleared; with it on
    the assistant is revealed at line 9 and both sides are highlighted.
    When the line above reads ["/src/a.c:0"] instead, the position on line
    -1 is refused: nothing is revealed or highlighted. *)
Lemma master_move_gated_by_mode_witness :
  snd (worldOf (selectionChange parseIntDigits parseFloatDigits (sessionHost 1 9)
                  masterEditor (sessionGlobals true false, [])))
  = [SetDecorations masterEditor []; SetDecorations sourceEditorA []]
  /\ snd (worldOf (selectionChange parseIntDigits parseFloatDigits (sessionHost 1 9)
                     masterEditor (sessionGlobals false false, [])))
     = [SetDecorations masterEditor []; SetDecorations sourceEditorA [];
        RevealRange sourceEditorA (Num 9);
        HighlightLines sourceEditorA (Some (Num 9)) 1;
        HighlightLines masterEditor (Some (Num 0)) 2]
  /\ snd (worldOf (selectionChange parseIntDigits parseFloatDigits lineZeroHost
                     masterEditor (sessionGlobals false false, [])))
     = [SetDecorations masterEditor []; SetDecorations sourceEditorA [];
        ShowInformationMessage "Execution failed"].
Proof.
  split; [|split].
  - destruct (master_move_gated_by_mode parseIntDigits parseFloatDigits
                (sessionHost 1 9) masterEditor (sessionGlobals true false) []
                (onConfig (set_intercept true) (sessionGlobals true false))
                masterEditor sourceEditorA) as [Hsingle _].
    + reflexivity.
    + reflexivity.
    + reflexivity.
    + reflexivity.
    + vm_compute. reflexivity.
    + reflexivity.
    + reflexivity.
    + reflexivity.
    + discriminate.
    + destruct (Hsingle eq_refl) as (g' & -> & _). reflexivity.
  - destruct (master_move_gated_by_mode parseIntDigits parseFloatDigits
                (sessionHost 1 9) masterEditor (sessionGlobals false false) []
                (onConfig (set_intercept true) (sessionGlobals false false))
                masterEditor sourceEditorA) as [_ Hdouble].
    + reflexivity.
    + reflexivity.
    + reflexivity.
    + reflexivity.
    + vm_compute. reflexivity.
    + reflexivity.
    + reflexivity.
    + reflexivity.
    + discriminate.
    + destruct (Hdouble eq_refl 0%nat "/src/a.c:10"
                  ["/src/a.c:10"; "/src/a.c"; "10"]) as [Hsame _].
      * change (activeLine (sessionHost 1 9) masterEditor) with 1%nat. lia.
      * reflexivity.
      * vm_compute. reflexivity.
      * intros j Hj.
        change (activeLine (sessionHost 1 9) masterEditor) with 1%nat in Hj.
        assert (j = 1%nat) as -> by lia.
        exists "    asm0". split; vm_compute; reflexivity.
      * destruct (Hsame eq_refl) as [Hshown _].
        destruct (Hshown eq_refl) as (g' & -> & _). vm_compute. reflexivity.
  - destruct (master_move_gated_by_mode parseIntDigits parseFloatDigits
                lineZeroHost masterEditor (sessionGlobals false false) []
                (onConfig (set_intercept true) (sessionGlobals false false))
                masterEditor sourceEditorA) as [_ Hdouble].
    + reflexivity.
    + reflexivity.
    + reflexivity.
    + reflexivity.
    + vm_compute. reflexivity.
    + reflexivity.
    + reflexivity.
    + reflexivity.
    + discriminate.
    + destruct (Hdouble eq_refl 0%nat "/src/a.c:0"
                  ["/src/a.c:0"; "/src/a.c"; "0"]) as [Hsame _].
      * change (activeLine lineZeroHost masterEditor) with 1%nat. lia.
      * reflexivity.
      * vm_compute. reflexivity.
      * intros j Hj.
        change (activeLine lineZeroHost masterEditor) with 1%nat in Hj.
        assert (j = 1%nat) as -> by lia.
        exists "    asm0". split; vm_compute; reflexivity.
      * destruct (Hsame eq_refl) as [_ Hrefused].
        destruct (Hrefused eq_refl) as (g' & -> & _). vm_compute. reflexivity.
Defined.

(** Closing and toggling in a session whose index has entries. *)
Lemma close_keeps_index_and_switchover_skips_extraction_witness :
  let w := (sessionGlobals false false, []) in
  let closed := snd (toggleFeatureCommand w) in
  table (fst closed) = table (fst w)
  /\ light (masterfile (fst closed)) = false
  /\ light (assistantfile (fst closed)) = false
  /\ fileLocationsMap
       (table (fst (toggleFeatureCommand1 parseIntDigits (sessionHost 0 9) closed)))
     = sessionIndex
  /\ exists new,
       snd (toggleFeatureCommand1 parseIntDigits (sessionHost 0 9) closed)
       = (snd closed ++ new)%list
       /\ Forall (fun e => readsFile e = false) new.
Proof.
  intros w closed.
  destruct (close_keeps_index_and_switchover_skips_extraction parseIntDigits
              (sessionHost 0 9) w) as ((Htable & _) & Hclear & Hskip).
  destruct Hclear as (_ & Hm & Ha & _).
  - intros _. vm_compute. eauto.
  - intros _. vm_compute. eauto.
  - destruct Hskip as [Hmap Hnew].
    + vm_compute. discriminate.
    + repeat split; assumption.
Defined.

(** With a reference file that names no source file the index stays
    empty, and toggling after a close reads the file again. *)
Lemma switchover_reads_again_when_index_empty :
  let h := emptyLogHost in
  let w1 := toggleFeatureCommand1 parseIntDigits h (freshGlobals "/empty.log", []) in
  let closed := snd (toggleFeatureCommand w1) in
  let w2 := toggleFeatureCommand1 parseIntDigits h closed in
  fileLocationsMap (table (fst closed)) = ∅
  /\ snd w2
     = (snd closed
        ++ [ShowInformationMessage "Single mapping has been enabled";
            ExistsSync "/empty.log"; ReadFile "/empty.log";
            OpenTextDocument "/empty.log"; ShowTextDocument referenceDocument])%list
  /\ ~ Forall (fun e => readsFile e = false) (drop (length (snd closed)) (snd w2)).
Proof.
  vm_compute. split; [reflexivity|]. split; [reflexivity|].
  intros H. inversion H as [|? ? _ H']. inversion H' as [|? ? Hread _].
  discriminate Hread.
Qed.

(** A toggle out of bidirectional mapping announces single mapping but
    leaves [isFeatureEnabled1] as it was: only [jumptrace.close] sets it
    back. *)
Remark switchover_from_double_keeps_isFeatureEnabled1 :
  let w := toggleFeatureCommand1 parseIntDigits (sessionHost 0 9)
             (sessionGlobals false false, []) in
  snd w = [ShowInformationMessage "Single mapping has been enabled"]
  /\ state (config (fst w)) = false
  /\ isFeatureEnabled1 (config (fst w)) = false.
Proof. vm_compute. repeat split. Qed.

(** ** The further properties on the fixtures *)

Lemma normalised_path_shape_witness :
  occurs backslash "C:/src/a.c" = false
  /\ String.length "C:/src/a.c" = String.length "c:\src\a.c"
  /\ "C:/src/a.c" <> "".
Proof.
  apply (normalised_path_shape "Windows" "c:\src\a.c" "C:/src/a.c"). reflexivity.
Defined.

Lemma windows_drive_paths_normalise_alike_witness :
  getActiveEditorFilePath "Windows" "c:\x\y" = Some "C:/x/y".
Proof.
  apply (windows_drive_paths_normalise_alike "c" backslash "x\y"); reflexivity.
Defined.

Lemma splitLines_round_trip_witness :
  joinLines (splitLines twiceText) = twiceText.
Proof. apply (splitLines_round_trip twiceText). reflexivity. Defined.

Lemma splitLines_lines_witness : occurs LF "  note" = false.
Proof.
  apply (proj2 (splitLines_lines noteText) "  note").
  vm_compute. repeat constructor.
Defined.

Lemma default_path_expressions_groups_witness :
  exists g1 g2,
    ["/src/a.c:10"; "/src/a.c"; "10"] = ["/src/a.c:10"; g1; g2]
    /\ "/src/a.c:10" = g1 +:+ String colon g2
    /\ digitsToEnd g2 = true
    /\ (posixPathRegex "/src/a.c:10" = Some ["/src/a.c:10"; "/src/a.c"; "10"] ->
        exists c tl, g1 = String c tl /\ isSeparator c = true)
    /\ (win32PathRegex "/src/a.c:10" = Some ["/src/a.c:10"; "/src/a.c"; "10"] ->
        exists d sep tl, g1 = String d (String colon (String sep tl))
          /\ isLetter d = true /\ isSeparator sep = true).
Proof.
  apply (default_path_expressions_groups "/src/a.c:10" ["/src/a.c:10"; "/src/a.c"; "10"]).
  left. reflexivity.
Defined.

Lemma highlightLines_all_or_nothing_witness :
  highlightLines (sessionHost 0 9) "Illegal value for line" masterEditor (Some (Num 0)) 2
  = [SetDecorations masterEditor [0; 1]]
  /\ highlightLines (sessionHost 0 9) "Illegal value for line" masterEditor (Some (Num 2)) 2
     = [ShowErrorMessage ("高亮行失败: " +:+ "Illegal value for line")].
Proof.
  split.
  - apply (proj1 (highlightLines_all_or_nothing (sessionHost 0 9)
                    "Illegal value for line" masterEditor 0 2 ltac:(lia))).
    intros j Hj. assert (j = 0%nat \/ j = 1%nat) as [-> | ->] by lia;
      vm_compute; eauto.
  - apply (proj2 (highlightLines_all_or_nothing (sessionHost 0 9)
                    "Illegal value for line" masterEditor 2 2 ltac:(lia)) 3%nat).
    + lia.
    + reflexivity.
Defined.

Lemma highlightLines_without_start_witness :
  highlightLines (sessionHost 0 9) "Illegal value for line" masterEditor
    (Some (Num (-1))) 1
  = [ShowErrorMessage ("高亮行失败: " +:+ "Illegal value for line")].
Proof.
  apply (proj2 (proj2 (highlightLines_without_start (sessionHost 0 9)
                         "Illegal value for line" masterEditor 1))); lia.
Defined.

(** The first line of [twiceText] that files the key of ["a.c:7"] is
    line 1; its block is that line and the skipped line below it. *)
Lemma index_entry_is_first_occurrence_witness :
  exists i l,
    originalFileIndex {| originalFileIndex := 1; highlightLineCount := 2 |} = Z.of_nat i
    /\ splitLines twiceText !! i = Some l
    /\ tokenOf parseIntDigits unknownPathRegex skipLeadingSpace l = Some ("a.c", Num 7)
    /\ (forall j l', (j < i)%nat -> splitLines twiceText !! j = Some l' ->
          tokenOf parseIntDigits unknownPathRegex skipLeadingSpace l'
          <> Some ("a.c", Num 7))
    /\ 1 <= highlightLineCount {| originalFileIndex := 1; highlightLineCount := 2 |}
    /\ originalFileIndex {| originalFileIndex := 1; highlightLineCount := 2 |}
       + highlightLineCount {| originalFileIndex := 1; highlightLineCount := 2 |}
       <= Z.of_nat (length (splitLines twiceText)).
Proof.
  apply (index_entry_is_first_occurrence parseIntDigits unknownPathRegex
           skipLeadingSpace (splitLines twiceText) ∅ "a.c" (Num 7)).
  - reflexivity.
  - vm_compute. reflexivity.
Defined.

Lemma index_entry_spans_skipped_run_witness :
  (forall j, 1 < Z.of_nat j < 1 + 2 ->
     exists l, splitLines twiceText !! j = Some l /\ is_Some (skipLeadingSpace l))
  /\ (forall l, splitLines twiceText !! Z.to_nat (1 + 2) = Some l ->
        skipLeadingSpace l = None).
Proof.
  apply (index_entry_spans_skipped_run parseIntDigits unknownPathRegex
           skipLeadingSpace (splitLines twiceText) ∅ "a.c" (Num 7)
           {| originalFileIndex := 1; highlightLineCount := 2 |}).
  - reflexivity.
  - vm_compute. reflexivity.
Defined.

(** No line of [twiceText] files [x.c:1]: the entry of [oneEntryIndex]
    stays; some line files [b.c:1]: it gets an entry. *)
Lemma extraction_touches_filed_keys_only_witness :
  lookupLocation
    (extractLines parseIntDigits unknownPathRegex skipLeadingSpace
       (splitLines twiceText) oneEntryIndex) "x.c" (Num 1)
  = lookupLocation oneEntryIndex "x.c" (Num 1)
  /\ is_Some (lookupLocation
       (extractLines parseIntDigits unknownPathRegex skipLeadingSpace
          (splitLines twiceText) oneEntryIndex) "b.c" (Num 1)).
Proof.
  split.
  - apply (proj1 (extraction_touches_filed_keys_only parseIntDigits unknownPathRegex
                    skipLeadingSpace (splitLines twiceText) oneEntryIndex "x.c" (Num 1))).
    intros i l Hl.
    do 4 (destruct i as [|i];
          [vm_compute in Hl; injection Hl as <-; vm_compute; discriminate|]).
    vm_compute in Hl. discriminate.
  - apply (proj2 (extraction_touches_filed_keys_only parseIntDigits unknownPathRegex
                    skipLeadingSpace (splitLines twiceText) oneEntryIndex "b.c" (Num 1))).
    exists 0%nat, "b.c:1". split; reflexivity.
Defined.

Lemma default_skip_never_hides_a_path_line_witness :
  posixPathRegex "  note" = None /\ win32PathRegex "  note" = None.
Proof.
  apply (proj1 (default_skip_never_hides_a_path_line parseIntDigits "  note")).
  vm_compute. eauto.
Defined.

Lemma index_entry_highlight_in_range_witness :
  highlightLines (sessionHost 0 9) "Illegal value for line" masterEditor
    (Some (Num 0)) 2
  = [SetDecorations masterEditor [0; 1]].
Proof.
  apply (index_entry_highlight_in_range parseIntDigits posixPathRegex skipLeadingSpace
           (splitLines sessionText) ∅ "/src/a.c" (Num 10)
           {| originalFileIndex := 0; highlightLineCount := 2 |}
           (sessionHost 0 9) "Illegal value for line" masterEditor).
  - reflexivity.
  - vm_compute. reflexivity.
  - intros j. reflexivity.
Defined.

Lemma single_mode_never_suspends_witness :
  exists w', selectionChange parseIntDigits parseFloatDigits (sessionHost 2 9)
               masterEditor (sessionGlobals true false, [])
             = Finished w'.
Proof.
  apply (single_mode_never_suspends parseIntDigits parseFloatDigits (sessionHost 2 9)
           masterEditor (sessionGlobals true false, [])).
  reflexivity.
Defined.

Lemma lightsHaveEditors_preserved_witness :
  lightsHaveEditors
    (fst (worldOf (selectionChange parseIntDigits parseFloatDigits (sessionHost 1 9)
                     masterEditor (sessionGlobals false false, []))))
  /\ lightsHaveEditors
       (fst (worldOf (selectionChangeResume parseIntDigits parseFloatDigits
                        (sessionHost 2 11) ["/src/b.c:12"; "/src/b.c"; "12"]
                        (Some sourceEditorB) (sessionGlobals false false, []))))
  /\ lightsHaveEditors (fst (snd (toggleFeatureCommand (sessionGlobals false false, []))))
  /\ lightsHaveEditors
       (fst (toggleFeatureCommand1 parseIntDigits (sessionHost 1 9)
               (sessionGlobals false false, []))).
Proof.
  apply (lightsHaveEditors_preserved parseIntDigits parseFloatDigits (sessionHost 1 9)
           masterEditor ["/src/b.c:12"; "/src/b.c"; "12"] (Some sourceEditorB)
           (sessionGlobals false false, [])).
  split; intros _; vm_compute; eauto.
Defined.

(** Master on line 0 and assistant on line 9, as recorded. *)
Lemma unchanged_lines_are_filtered_witness :
  selectionChange parseIntDigits parseFloatDigits (sessionHost 0 9) masterEditor
    (sessionGlobals true false, [])
  = Finished (onConfig (set_intercept false)
                (onConfig (set_intercept true) (sessionGlobals true false)), []).
Proof.
  apply (unchanged_lines_are_filtered parseIntDigits parseFloatDigits (sessionHost 0 9)
           masterEditor (sessionGlobals true false) []
           (onConfig (set_intercept true) (sessionGlobals true false))
           masterEditor sourceEditorA).
  - reflexivity.
  - reflexivity.
  - reflexivity.
  - reflexivity.
  - vm_compute. reflexivity.
  - reflexivity.
  - reflexivity.
  - reflexivity.
  - reflexivity.
Defined.

(** A third editor on [/src/zzz.c], which the reference file does not name. *)
Lemma untracked_editor_becomes_assistant_witness :
  exists g',
    selectionChange parseIntDigits parseFloatDigits strayHost sourceEditorB
      (sessionGlobals true false, [])
    = Finished (g', [])
    /\ assistantfile g'
       = set_path (getActiveEditorFilePath "Linux" "/src/zzz.c")
           (set_editor (Some sourceEditorB) (assistantfile (sessionGlobals true false)))
    /\ masterfile g' = masterfile (sessionGlobals true false)
    /\ table g' = table (sessionGlobals true false)
    /\ intercept (config g') = false.
Proof.
  apply (untracked_editor_becomes_assistant parseIntDigits parseFloatDigits strayHost
           sourceEditorB (sessionGlobals true false) []).
  - reflexivity.
  - reflexivity.
  - reflexivity.
  - reflexivity.
  - discriminate.
  - discriminate.
  - intros p' Hp. vm_compute in Hp. injection Hp as <-. vm_compute. reflexivity.
Defined.

(** The assistant, last seen on line 3, is on line 9: source line 10. *)
Lemma assistant_move_reveals_master_witness :
  exists g',
    selectionChange parseIntDigits parseFloatDigits (sessionHost 0 9) sourceEditorA
      (onAssistant (set_oldlines (Some 3%nat)) (sessionGlobals true false), [])
    = Finished (g',
        [SetDecorations masterEditor []; SetDecorations sourceEditorA [];
         RevealRange masterEditor (Num 0);
         HighlightLines sourceEditorA (Some (Num 9)) 1;
         HighlightLines masterEditor (Some (Num 0)) 2])
    /\ oldlines (masterfile g') = Some 0%nat
    /\ oldlines (assistantfile g') = Some 9%nat
    /\ light (masterfile g') = true
    /\ light (assistantfile g') = true
    /\ locationData (table g')
       = Some {| originalFileIndex := 0; highlightLineCount := 2 |}
    /\ intercept (config g') = false.
Proof.
  apply (assistant_move_reveals_master parseIntDigits parseFloatDigits (sessionHost 0 9)
           sourceEditorA
           (onAssistant (set_oldlines (Some 3%nat)) (sessionGlobals true false)) []
           (onConfig (set_intercept true)
              (onAssistant (set_oldlines (Some 3%nat)) (sessionGlobals true false)))
           masterEditor sourceEditorA
           {| originalFileIndex := 0; highlightLineCount := 2 |}).
  - reflexivity.
  - reflexivity.
  - reflexivity.
  - reflexivity.
  - vm_compute. reflexivity.
  - reflexivity.
  - reflexivity.
  - discriminate.
  - vm_compute. reflexivity.
  - cbn. lia.
Defined.

Lemma source_line_reveals_first_occurrence_witness :
  exists g',
    selectionChange parseIntDigits parseFloatDigits (sessionHost 0 9) sourceEditorA
      (onAssistant (set_oldlines (Some 3%nat)) (sessionGlobals true false), [])
    = Finished (g',
        ([] ++ clears (onConfig (set_intercept true)
                         (onAssistant (set_oldlines (Some 3%nat))
                            (sessionGlobals true false)))
                 masterEditor sourceEditorA
         ++ [RevealRange masterEditor (Num (Z.of_nat 0));
             HighlightLines sourceEditorA (Some (Num (Z.of_nat 9))) 1;
             HighlightLines masterEditor (Some (Num (Z.of_nat 0)))
               (Z.of_nat (boundary skipLeadingSpace (splitLines sessionText) 1)
                - Z.of_nat 0)])%list)
    /\ locationData (table g')
       = Some (entryAt skipLeadingSpace (splitLines sessionText) 0).
Proof.
  apply (source_line_reveals_first_occurrence parseIntDigits parseFloatDigits
           posixPathRegex skipLeadingSpace (splitLines sessionText) "/src/a.c"
           0%nat "/src/a.c:10" (sessionHost 0 9) sourceEditorA
           (onAssistant (set_oldlines (Some 3%nat)) (sessionGlobals true false)) []
           (onConfig (set_intercept true)
              (onAssistant (set_oldlines (Some 3%nat)) (sessionGlobals true false)))
           masterEditor sourceEditorA).
  - reflexivity.
  - reflexivity.
  - reflexivity.
  - reflexivity.
  - vm_compute. reflexivity.
  - reflexivity.
  - reflexivity.
  - discriminate.
  - reflexivity.
  - vm_compute. reflexivity.
  - reflexivity.
  - vm_compute. reflexivity.
  - intros j l' Hj. lia.
Defined.

(** The master moves in a reference file none of whose lines names a
    source file: the entry and the target line of the last cycle are
    highlighted again. *)
Lemma exhausted_scan_repeats_last_entry_witness :
  exists g',
    selectionChange parseIntDigits parseFloatDigits emptyLogHost masterEditor
      (onMaster (set_oldlines (Some 5%nat))
         (onAssistant (set_oldlines (Some 0%nat)) (sessionGlobals false false)), [])
    = Finished (g',
        [SetDecorations masterEditor []; SetDecorations sourceEditorA [];
         HighlightLines sourceEditorA (Some (Num 9)) 1;
         HighlightLines masterEditor (Some (Num 0)) 2]).
Proof.
  destruct (exhausted_scan_repeats_last_entry parseIntDigits parseFloatDigits
              emptyLogHost masterEditor
              (onMaster (set_oldlines (Some 5%nat))
                 (onAssistant (set_oldlines (Some 0%nat)) (sessionGlobals false false)))
              []
              (onConfig (set_intercept true)
                 (onMaster (set_oldlines (Some 5%nat))
                    (onAssistant (set_oldlines (Some 0%nat))
                       (sessionGlobals false false))))
              masterEditor sourceEditorA) as (g' & Heq & _).
  - reflexivity.
  - reflexivity.
  - reflexivity.
  - reflexivity.
  - vm_compute. reflexivity.
  - reflexivity.
  - reflexivity.
  - reflexivity.
  - discriminate.
  - reflexivity.
  - intros j Hj. exists "nothing to see". split; vm_compute; reflexivity.
  - exists g'. exact Heq.
Defined.

(** The navigation to [/src/b.c], line 12, has given editor 3. *)
Lemma navigation_resumed_witness :
  exists g',
    selectionChangeResume parseIntDigits parseFloatDigits (sessionHost 2 11)
      ["/src/b.c:12"; "/src/b.c"; "12"] (Some sourceEditorB)
      (sessionGlobals false false, [])
    = Finished (g',
        [LoggerLog "/src/b.c"; HighlightLines sourceEditorB (Some (Num 11)) 1;
         HighlightLines masterEditor (Some (Num 2)) 1])
    /\ editor (assistantfile g') = Some sourceEditorB
    /\ path (assistantfile g') = Some "/src/b.c"
    /\ oldlines (masterfile g') = Some 2%nat
    /\ oldlines (assistantfile g') = Some 11%nat.
Proof.
  destruct (navigation_resumed parseIntDigits parseFloatDigits (sessionHost 2 11)
              ["/src/b.c:12"; "/src/b.c"; "12"] (sessionGlobals false false) []
              masterEditor eq_refl) as [_ Hsome].
  destruct (Hsome sourceEditorB "/src/b.c" eq_refl) as [_ Hfound].
  destruct (Hfound (default ∅ (sessionIndex !! "/src/b.c")))
    as (g' & Heq & He & Hp & _ & _ & _ & Hom & Hoa & _).
  - vm_compute. reflexivity.
  - exists g'. rewrite Heq. repeat split; assumption.
Defined.

(** The first toggle of a fresh extension on the session's reference
    file. *)
Lemma first_switchover_builds_index_witness :
  let w' := toggleFeatureCommand1 parseIntDigits (sessionHost 0 0)
              (freshGlobals "/ref.log", []) in
  fileLocationsMap (table (fst w'))
  = fst (extractFileLocations parseIntDigits (sessionHost 0 0) "/ref.log" ∅
           posixPathRegex skipLeadingSpace)
  /\ doc (masterfile (fst w')) = Some referenceDocument
  /\ editor (masterfile (fst w')) = Some masterEditor
  /\ editor (assistantfile (fst w')) = Some masterEditor
  /\ error (config (fst w')) = false
  /\ intercept (config (fst w')) = false.
Proof.
  apply (first_switchover_builds_index parseIntDigits (sessionHost 0 0)
           (freshGlobals "/ref.log") [] referenceDocument masterEditor);
    reflexivity.
Defined.

(** The first toggle on a reference file that does not exist. *)
Lemma failed_switchover_disables_handler_witness :
  let w' := toggleFeatureCommand1 parseIntDigits (sessionHost 0 0)
              (freshGlobals "/missing.log", []) in
  error (config (fst w')) = true
  /\ intercept (config (fst w')) = false
  /\ last (snd w') = Some (ShowInformationMessage "config error}")
  /\ (forall h' ev, selectionChange parseIntDigits parseFloatDigits h' ev w' = Finished w')
  /\ (forall h', error (config (fst (toggleFeatureCommand1 parseIntDigits h' w'))) = true)
  /\ error (config (fst (snd (toggleFeatureCommand w')))) = true.
Proof.
  apply (failed_switchover_disables_handler parseIntDigits parseFloatDigits
           (sessionHost 0 0) (freshGlobals "/missing.log") []);
    reflexivity.
Defined.
